(** * VPlan_FR: the substitution-message engine of [backend/lesson_info.py]

    A shallow embedding of the message grammar, the bracket-aware segmenter,
    the message model with its rendering, grouping and serialisation, the
    teacher resolver and inference, and the fuzzy linker, together with the
    properties the specification states about them.

    Python values are modelled as follows.
    - [str] is a list of Unicode code points ([char := N]); string literals of
      the source are written [py "..."], which decodes the UTF-8 bytes of the
      Rocq literal.
    - [int] is [Z].
    - [set[T]] is a list holding the elements in iteration order (Python leaves
      that order unspecified); equality of sets is mutual inclusion.
    - [dict] is an association list in insertion order.
    - a raised exception is the [Raise] case of [result]. *)

From Stdlib Require Import List NArith ZArith String Ascii Bool Lia.
From Stdlib Require Import DecimalString Sorted Permutation.
Import ListNotations.

Set Implicit Arguments.
Local Open Scope nat_scope.

(** ** Strings *)

Definition char := N.
Definition str := list char.

Definition char_eqb (a b : char) : bool := N.eqb a b.

Fixpoint str_eqb (a b : str) : bool :=
  match a, b with
  | [], [] => true
  | x :: a', y :: b' => char_eqb x y && str_eqb a' b'
  | _, _ => false
  end.

(** UTF-8 decoding of the bytes of a literal. *)
Fixpoint decode_utf8 (bs : list N) : str :=
  match bs with
  | [] => []
  | b :: r =>
      if (b <? 128)%N then b :: decode_utf8 r
      else if (b <? 224)%N then
        match r with
        | c1 :: r1 => ((b - 192) * 64 + (c1 - 128))%N :: decode_utf8 r1
        | _ => []
        end
      else if (b <? 240)%N then
        match r with
        | c1 :: c2 :: r2 =>
            ((b - 224) * 4096 + (c1 - 128) * 64 + (c2 - 128))%N :: decode_utf8 r2
        | _ => []
        end
      else
        match r with
        | c1 :: c2 :: c3 :: r3 =>
            ((b - 240) * 262144 + (c1 - 128) * 4096 + (c2 - 128) * 64 + (c3 - 128))%N
              :: decode_utf8 r3
        | _ => []
        end
  end.

Definition py (s : string) : str :=
  decode_utf8 (map N_of_ascii (list_ascii_of_string s)).

Definition chr (s : string) : char := hd 0%N (py s).

(** [s[a:b]] for [0 <= a], [0 <= b]. *)
Definition slice (s : str) (a b : nat) : str := firstn (b - a) (skipn a s).

(** [sep.join(parts)] *)
Fixpoint join (sep : str) (parts : list str) : str :=
  match parts with
  | [] => []
  | [p] => p
  | p :: rest => p ++ sep ++ join sep rest
  end.

(** [str.isspace] for one character: the Unicode white space characters. *)
Definition isspace (c : char) : bool :=
  ((9 <=? c) && (c <=? 13) || (28 <=? c) && (c <=? 32) || (c =? 133) || (c =? 160)
   || (c =? 5760) || (8192 <=? c) && (c <=? 8202) || (c =? 8232) || (c =? 8233)
   || (c =? 8239) || (c =? 8287) || (c =? 12288))%N.

Fixpoint lstrip (s : str) : str :=
  match s with
  | c :: s' => if isspace c then lstrip s' else s
  | [] => []
  end.

Definition rstrip (s : str) : str := rev (lstrip (rev s)).

(** [str.strip()] *)
Definition strip (s : str) : str := rstrip (lstrip s).

(** [str.split(sep)] for a one-character separator: empty pieces are kept. *)
Fixpoint split_on (sep : char) (s : str) : list str :=
  match s with
  | [] => [[]]
  | c :: s' =>
      if char_eqb c sep then [] :: split_on sep s'
      else match split_on sep s' with
           | p :: ps => (c :: p) :: ps
           | [] => [[c]]
           end
  end.

(** [str.split()]: pieces between runs of white space, empty pieces dropped. *)
Fixpoint split_ws_aux (cur : str) (s : str) : list str :=
  match s with
  | [] => match cur with [] => [] | _ => [rev cur] end
  | c :: s' =>
      if isspace c
      then match cur with [] => split_ws_aux [] s' | _ => rev cur :: split_ws_aux [] s' end
      else split_ws_aux (c :: cur) s'
  end.

Definition split_ws (s : str) : list str := split_ws_aux [] s.

(** [str.replace(old, "")] for a one-character [old]. *)
Definition remove_char (old : char) (s : str) : str :=
  filter (fun c => negb (char_eqb c old)) s.

(** The Unicode character database of the interpreter is not part of the
    repository: [str.isalpha], [str.isalnum] and the value of a decimal digit
    (the characters [\d] matches and [int] reads) are an interface. *)
Class UnicodeData := {
  isalpha : char -> bool;
  isalnum : char -> bool;
  decimal : char -> option Z
}.

(** The database restricted to Latin-1 (U+0000 to U+00FF); every code point
    above is outside all three classes. *)
Definition latin1_isalpha (c : char) : bool :=
  ((65 <=? c) && (c <=? 90) || (97 <=? c) && (c <=? 122) || (c =? 170) || (c =? 181)
   || (c =? 186) || (192 <=? c) && (c <=? 214) || (216 <=? c) && (c <=? 246)
   || (248 <=? c) && (c <=? 255))%N.

Definition latin1_decimal (c : char) : option Z :=
  if ((48 <=? c) && (c <=? 57))%N then Some (Z.of_N c - 48)%Z else None.

Definition latin1_isalnum (c : char) : bool :=
  (latin1_isalpha c || (48 <=? c) && (c <=? 57) || (c =? 178) || (c =? 179)
   || (c =? 185) || (188 <=? c) && (c <=? 190))%N.

Definition latin1 : UnicodeData :=
  {| isalpha := latin1_isalpha; isalnum := latin1_isalnum; decimal := latin1_decimal |}.

(** ** Exceptions *)

Inductive exn :=
| ValueError | TypeError | AttributeError
| LookupError | IndexError | KeyError
| StopIteration.

(** [except LookupError] catches the class and its subclasses. *)
Definition is_LookupError (e : exn) : bool :=
  match e with
  | LookupError | IndexError | KeyError => true
  | _ => false
  end.

Inductive result (A : Type) :=
| Ok (a : A)
| Raise (e : exn).
Arguments Ok {A} a.
Arguments Raise {A} e.

Definition bind {A B} (r : result A) (f : A -> result B) : result B :=
  match r with
  | Ok a => f a
  | Raise e => Raise e
  end.

Notation "x <- c1 ;; c2" := (bind c1 (fun x => c2))
  (at level 61, c1 at next level, right associativity).

Fixpoint mapM {A B} (f : A -> result B) (l : list A) : result (list B) :=
  match l with
  | [] => Ok []
  | x :: l' => y <- f x ;; ys <- mapM f l' ;; Ok (y :: ys)
  end.

(** ** Sets as lists *)

Definition pyset (A : Type) := list A.

Fixpoint mem {A} (eqb : A -> A -> bool) (x : A) (s : pyset A) : bool :=
  match s with
  | [] => false
  | y :: s' => eqb x y || mem eqb x s'
  end.

(** [set(l)]: duplicates dropped, first occurrence kept. *)
Fixpoint set_of_list {A} (eqb : A -> A -> bool) (l : list A) : pyset A :=
  match l with
  | [] => []
  | x :: l' => x :: filter (fun y => negb (eqb y x)) (set_of_list eqb l')
  end.

(** [a.issubset(b)] *)
Definition issubset {A} (eqb : A -> A -> bool) (a b : pyset A) : bool :=
  forallb (fun x => mem eqb x b) a.

(** [a == b] on sets *)
Definition set_eqb {A} (eqb : A -> A -> bool) (a b : pyset A) : bool :=
  issubset eqb a b && issubset eqb b a.

(** [a == b] on values that are a set or [None] *)
Definition opt_set_eqb {A} (eqb : A -> A -> bool) (a b : option (pyset A)) : bool :=
  match a, b with
  | None, None => true
  | Some x, Some y => set_eqb eqb x y
  | _, _ => false
  end.

(** ** Regular expressions

    The patterns of the source are written as syntax trees and run by a
    backtracking matcher with the priorities of Python's [re]: the left
    alternative first, repetitions greedy. *)

Inductive regex :=
| Eps                                              (* the empty pattern *)
| Cls (p : char -> bool)                           (* one character of a class *)
| Cat (r1 r2 : regex)
| Alt (r1 r2 : regex)                              (* r1|r2 *)
| Rep (lo : nat) (hi : option nat) (r : regex)     (* r{lo,hi}, greedy *)
| Grp (name : string) (r : regex)                  (* a capturing group *)
| Ahead (r : regex)                                (* (?=r) *)
| Behind (p : char -> bool)                        (* (?<=c) *)
| NotBehind (p : char -> bool)                     (* (?<!c) *)
| Boundary (w : char -> bool).                     (* \b for the word class w *)

Fixpoint lit (s : str) : regex :=
  match s with
  | [] => Eps
  | [c] => Cls (char_eqb c)
  | c :: s' => Cat (Cls (char_eqb c)) (lit s')
  end.

Definition opt (r : regex) : regex := Rep 0 (Some 1) r.
Definition star (r : regex) : regex := Rep 0 None r.
Definition plus (r : regex) : regex := Rep 1 None r.

Fixpoint cat (rs : list regex) : regex :=
  match rs with
  | [] => Eps
  | [r] => r
  | r :: rs' => Cat r (cat rs')
  end.

Record mstate := { pos : nat; caps : list (string * (nat * nat)) }.

Section Matcher.
Variable text : str.

Definition below (n : nat) (hi : option nat) : bool :=
  match hi with
  | None => true
  | Some h => n <? h
  end.

Definition char_before (i : nat) : option char :=
  match i with
  | O => None
  | S j => nth_error text j
  end.

Definition holds (p : char -> bool) (c : option char) : bool :=
  match c with
  | Some x => p x
  | None => false
  end.

(** [run r st k]: match [r] at [st], then continue with [k]; [None] asks the
    caller to backtrack.  An iteration of a repetition that consumes nothing
    ends the repetition once [lo] iterations are done. *)
Fixpoint run (r : regex) (st : mstate) (k : mstate -> option mstate) {struct r}
  : option mstate :=
  match r with
  | Eps => k st
  | Cls p =>
      match nth_error text (pos st) with
      | Some c => if p c then k {| pos := S (pos st); caps := caps st |} else None
      | None => None
      end
  | Cat r1 r2 => run r1 st (fun st' => run r2 st' k)
  | Alt r1 r2 =>
      match run r1 st k with
      | Some res => Some res
      | None => run r2 st k
      end
  | Rep lo hi r' =>
      (fix iter (fuel n : nat) (st : mstate) {struct fuel} : option mstate :=
         match fuel with
         | O => if lo <=? n then k st else None
         | S fuel' =>
             match
               (if below n hi
                then run r' st (fun st' =>
                       if (pos st <? pos st') || (n <? lo)
                       then iter fuel' (S n) st' else None)
                else None)
             with
             | Some res => Some res
             | None => if lo <=? n then k st else None
             end
         end) (S (lo + List.length text)) 0 st
  | Grp name r' =>
      run r' st (fun st' =>
        k {| pos := pos st'; caps := (name, (pos st, pos st')) :: caps st' |})
  | Ahead r' =>
      match run r' st (fun st' => Some st') with
      | Some _ => k st
      | None => None
      end
  | Behind p => if holds p (char_before (pos st)) then k st else None
  | NotBehind p => if holds p (char_before (pos st)) then None else k st
  | Boundary w =>
      if xorb (holds w (char_before (pos st))) (holds w (nth_error text (pos st)))
      then k st else None
  end.
End Matcher.

(** A match object: the subject, the span and the groups that took part. *)
Record Match := {
  m_string : str;
  m_start : nat;
  m_end : nat;
  m_groups : list (string * (nat * nat))
}.

(** [pattern.match(text, i)] *)
Definition match_at (r : regex) (text : str) (i : nat) : option Match :=
  match run text r {| pos := i; caps := [] |} (fun st => Some st) with
  | Some st => Some {| m_string := text; m_start := i; m_end := pos st; m_groups := caps st |}
  | None => None
  end.

(** [pattern.match(text)] *)
Definition re_match (r : regex) (text : str) : option Match := match_at r text 0.

Fixpoint search_from (r : regex) (text : str) (i n : nat) : option Match :=
  match match_at r text i with
  | Some m => Some m
  | None =>
      match n with
      | O => None
      | S n' => search_from r text (S i) n'
      end
  end.

(** [pattern.search(text)]: the leftmost position at which the pattern matches. *)
Definition re_search (r : regex) (text : str) : option Match :=
  search_from r text 0 (List.length text).

Fixpoint assoc {A} (k : string) (l : list (string * A)) : option A :=
  match l with
  | [] => None
  | (k', v) :: l' => if String.eqb k k' then Some v else assoc k l'
  end.

(** [match.group(name)]; [None] when the group took no part in the match. *)
Definition m_group (m : Match) (name : string) : option str :=
  match assoc name (m_groups m) with
  | Some (a, b) => Some (slice (m_string m) a b)
  | None => None
  end.

(** [match.group()] *)
Definition group0 (m : Match) : str := slice (m_string m) (m_start m) (m_end m).

(** A group the pattern always sets when it matches. *)
Definition group_of (m : Match) (name : string) : str :=
  match m_group m name with
  | Some s => s
  | None => []
  end.

(** ** Character classes of the patterns *)

Definition in_range (a b : string) (c : char) : bool :=
  ((chr a <=? c) && (c <=? chr b))%N.

Definition one_of (s : string) (c : char) : bool := mem char_eqb c (py s).

(** [[A-ZÄÖÜ]] *)
Definition upper (c : char) : bool := in_range "A" "Z" c || one_of "ÄÖÜ" c.
(** [[a-zäöüß]] *)
Definition lower (c : char) : bool := in_range "a" "z" c || one_of "äöüß" c.
(** [[A-ZÄÖÜa-zäöüß]] *)
Definition letter (c : char) : bool :=
  in_range "A" "Z" c || one_of "ÄÖÜ" c || in_range "a" "z" c || one_of "äöüß" c.
(** [[A-Za-z0-9ÄÖÜäöüß\/\-_]] *)
Definition course_char (c : char) : bool :=
  in_range "A" "Z" c || in_range "a" "z" c || in_range "0" "9" c
  || one_of "ÄÖÜäöüß" c || one_of "/-_" c.
(** [.] *)
Definition any_char (c : char) : bool := negb (char_eqb c 10%N).
(** [\s] and [\S] *)
Definition space (c : char) : bool := isspace c.
Definition non_space (c : char) : bool := negb (isspace c).

Section UnicodeClasses.
Context {U : UnicodeData}.

(** [\d] *)
Definition digit (c : char) : bool :=
  match decimal c with
  | Some _ => true
  | None => false
  end.

(** [\w] *)
Definition word (c : char) : bool := isalnum c || char_eqb c (chr "_").

(** [int(s)] for a string of decimal digits, as the patterns capture them. *)
Definition int_of (s : str) : Z :=
  fold_left (fun acc c => match decimal c with
                          | Some d => (10 * acc + d)%Z
                          | None => acc
                          end) s 0%Z.
End UnicodeClasses.

(** ** Calendar dates ([datetime.date]) *)

Record Date := { year : Z; month : Z; day : Z }.

Definition Date_eqb (a b : Date) : bool :=
  (year a =? year b)%Z && (month a =? month b)%Z && (day a =? day b)%Z.

(** [a < b] *)
Definition Date_ltb (a b : Date) : bool :=
  (year a <? year b)%Z
  || (year a =? year b)%Z
     && ((month a <? month b)%Z || (month a =? month b)%Z && (day a <? day b)%Z).

Definition opt_Date_eqb (a b : option Date) : bool :=
  match a, b with
  | None, None => true
  | Some x, Some y => Date_eqb x y
  | _, _ => false
  end.

Definition is_leap (y : Z) : bool :=
  ((y mod 4 =? 0) && (negb (y mod 100 =? 0) || (y mod 400 =? 0)))%Z.

Definition days_in_month (y m : Z) : Z :=
  (if m =? 2 then (if is_leap y then 29 else 28)
   else if (m =? 4) || (m =? 6) || (m =? 9) || (m =? 11) then 30 else 31)%Z.

Definition days_before_year (y : Z) : Z :=
  (let y1 := y - 1 in y1 * 365 + y1 / 4 - y1 / 100 + y1 / 400)%Z.

Definition days_before_month (y m : Z) : Z :=
  fold_left (fun acc k => (acc + days_in_month y (Z.of_nat k))%Z)
            (seq 1 (Z.to_nat (m - 1))) 0%Z.

(** [date.toordinal()] *)
Definition toordinal (d : Date) : Z :=
  (days_before_year (year d) + days_before_month (year d) (month d) + day d)%Z.

(** [date.weekday()]: Monday is 0. *)
Definition weekday (d : Date) : Z := ((toordinal d + 6) mod 7)%Z.

Definition str_of_Z (z : Z) : str :=
  py (NilZero.string_of_int (Z.to_int z)).

(** ["%0<width>d"]: zeros in front up to the width. *)
Definition zero_pad (width : nat) (s : str) : str :=
  repeat (chr "0") (width - List.length s) ++ s.

(** [date.strftime('%d.%m.%Y')]; [%Y] is the year filled with zeros to four
    digits, as the documentation of [strftime] has it (the C library of some
    platforms leaves the years below 1000 unfilled). *)
Definition strftime_dmY (d : Date) : str :=
  zero_pad 2 (str_of_Z (day d)) ++ py "." ++ zero_pad 2 (str_of_Z (month d)) ++ py "."
    ++ zero_pad 4 (str_of_Z (year d)).

(** [date.isoformat()] *)
Definition isoformat (d : Date) : str :=
  zero_pad 4 (str_of_Z (year d)) ++ py "-" ++ zero_pad 2 (str_of_Z (month d)) ++ py "-"
    ++ zero_pad 2 (str_of_Z (day d)).

(** [de_weekday_to_str] *)
Definition de_weekday_to_str (weekday : Z) : str :=
  nth (Z.to_nat weekday)
      [py "Mo"; py "Di"; py "Mi"; py "Do"; py "Fr"; py "Sa"; py "So"] [].


(** ** Ordering and [sorted] *)

(** [a < b] on lists (and on strings, character by character): decided at the
    first position where the two differ, a proper prefix being smaller. *)
Fixpoint list_ltb {A} (eqb ltb : A -> A -> bool) (a b : list A) : bool :=
  match a, b with
  | _, [] => false
  | [], _ :: _ => true
  | x :: a', y :: b' => if eqb x y then list_ltb eqb ltb a' b' else ltb x y
  end.

Definition str_ltb : str -> str -> bool := list_ltb char_eqb N.ltb.

Fixpoint list_eqb {A} (eqb : A -> A -> bool) (a b : list A) : bool :=
  match a, b with
  | [], [] => true
  | x :: a', y :: b' => eqb x y && list_eqb eqb a' b'
  | _, _ => false
  end.

Section Sorted.
Variables (A K : Type) (ltb : K -> K -> bool) (key : A -> K).

(** [x] goes in front of the first element whose key is not smaller, so that
    equal keys keep the order of the input. *)
Fixpoint insert_by (x : A) (l : list A) : list A :=
  match l with
  | [] => [x]
  | y :: l' => if ltb (key y) (key x) then y :: insert_by x l' else x :: y :: l'
  end.

(** [sorted(l, key=key)]: the stable sort. *)
Fixpoint sorted_by (l : list A) : list A :=
  match l with
  | [] => []
  | x :: l' => insert_by x (sorted_by l')
  end.
End Sorted.

(** [sorted(s)] for a set of strings and for a set of integers *)
Definition sorted_str (s : pyset str) : list str := sorted_by str_ltb (fun x => x) s.
Definition sorted_int (s : pyset Z) : list Z := sorted_by Z.ltb (fun x => x) s.

(** ** The patterns of [_InfoParsers] *)

Definition L (s : string) : regex := lit (py s).

Module _InfoParsers.
Section Patterns.
Context {U : UnicodeData}.

(** [_parse_form_pattern.pattern] of [vplan_utils], a module outside the
    sources at hand: the pattern is a parameter. *)
Variable _form : regex.

(** [(?:[A-ZÄÖÜ]')?[A-ZÄÖÜ][a-zäöüß]+(?:-[A-ZÄÖÜ][a-zäöüß]+)*\.?] *)
Definition _name_element : regex :=
  cat [opt (Cat (Cls upper) (L "'"));
       Cls upper; plus (Cls lower);
       star (cat [L "-"; Cls upper; plus (Cls lower)]);
       opt (L ".")].

(** [(?:NE)(?: ?NE)*(?: van)?(?: NE)] with [NE] the name element *)
Definition _teacher_name : regex :=
  cat [_name_element;
       star (Cat (opt (L " ")) _name_element);
       opt (L " van");
       Cat (L " ") _name_element].

(** [[A-ZÄÖÜ][A-ZÄÖÜa-zäöüß]{2,}] *)
Definition _teacher_abbreviation : regex :=
  Cat (Cls upper) (Rep 2 None (Cls letter)).

(** [(?:TN)|(?:TA)] *)
Definition _teacher : regex := Alt _teacher_name _teacher_abbreviation.

(** [fr"{_teacher}(?:, ?{_teacher})*"], that is the text
    [(?:TN)|(?:TA)(?:, ?(?:TN)|(?:TA))*]: the inserted text is not bracketed,
    so each bar splits the whole of the group it stands in. *)
Definition _teachers : regex :=
  Alt _teacher_name
      (Cat _teacher_abbreviation
           (star (Alt (cat [L ","; opt (L " "); _teacher_name])
                      _teacher_abbreviation))).

(** [([A-Za-z0-9ÄÖÜäöüß\/\-_]{2,8})]; wherever it is used it is the second
    group of the pattern. *)
Definition _course : regex := Grp "2" (Rep 2 (Some 8) (Cls course_char)).

(** [St\.(?P<periods>(?P<period_begin>\d{1,2})(?:-(?P<period_end>\d{1,2}))?)] *)
Definition _period : regex :=
  Cat (L "St.")
      (Grp "periods"
         (Cat (Grp "period_begin" (Rep 1 (Some 2) (Cls digit)))
              (opt (Cat (L "-") (Grp "period_end" (Rep 1 (Some 2) (Cls digit))))))).

(** [(?:Mo|Di|Mi|Do|Fr|Sa|So)] *)
Definition _weekday : regex :=
  Alt (L "Mo") (Alt (L "Di") (Alt (L "Mi") (Alt (L "Do") (Alt (L "Fr")
    (Alt (L "Sa") (L "So")))))).

(** [(?:\d{2}\.\d{2}\.)] *)
Definition _date : regex :=
  cat [Rep 2 (Some 2) (Cls digit); L "."; Rep 2 (Some 2) (Cls digit); L "."].

(** [{_weekday} \((?P<date>{_date})\) {_period}] *)
Definition _lesson_specifier : regex :=
  cat [_weekday; L " ("; Grp "date" _date; L ") "; _period].

(** [verlegt von {_period}] *)
Definition moved_from : regex := Cat (L "verlegt von ") _period.

(** [für (?P<course>{_course}) (?P<teachers>{_teachers})] *)
Definition substitution : regex :=
  cat [L "für "; Grp "course" _course; L " "; Grp "teachers" _teachers].

(** [statt {_weekday} \((?P<date>{_date})\) {_period}] *)
Definition instead_of : regex :=
  cat [L "statt "; _weekday; L " ("; Grp "date" _date; L ") "; _period].

(** [(?P<course>{_course}) (?P<teachers>{_teachers}) gehalten am {_lesson_specifier}] *)
Definition held_at : regex :=
  cat [Grp "course" _course; L " "; Grp "teachers" _teachers; L " gehalten am ";
       _lesson_specifier].

(** [(?P<course>{_course}) (?P<teachers>{_teachers}) verlegt nach {_period}] *)
Definition moved_to : regex :=
  cat [Grp "course" _course; L " "; Grp "teachers" _teachers; L " verlegt nach ";
       _period].

(** [(?P<course>{_course}) (?P<teachers>{_teachers}) verlegt nach {_lesson_specifier}] *)
Definition moved_to_date : regex :=
  cat [Grp "course" _course; L " "; Grp "teachers" _teachers; L " verlegt nach ";
       _lesson_specifier].

(** [(?P<course>{_course}) (?P<teachers>{_teachers}) (fällt aus|entfällt)] *)
Definition cancelled : regex :=
  cat [Grp "course" _course; L " "; Grp "teachers" _teachers; L " ";
       Grp "4" (Alt (L "fällt aus") (L "entfällt"))].

(** [selbst\.(?: \(.\))?] *)
Definition independent : regex :=
  Cat (L "selbst.") (opt (cat [L " ("; Cls any_char; L ")"])).

(** [Aufgaben stehen im LernSax] *)
Definition tasks_in_lernsax : regex := L "Aufgaben stehen im LernSax".

(** [Aufgaben wurden erteilt] *)
Definition tasks_were_given : regex := L "Aufgaben wurden erteilt".

(** [bitte(( \w+)+) bearbeiten] *)
Definition do_where : regex :=
  cat [L "bitte"; Grp "1" (plus (Grp "2" (Cat (L " ") (plus (Cls word)))));
       L " bearbeiten"].

(** [gesamte Klasse (?P<form>{_form})] *)
Definition whole_form : regex := Cat (L "gesamte Klasse ") (Grp "form" _form).

(** [individuelle Nachbearbeitung des aktuellen Stoffes (?P<location>in der Bibo)?] *)
Definition individual_revision : regex :=
  Cat (L "individuelle Nachbearbeitung des aktuellen Stoffes ")
      (opt (Grp "location" (L "in der Bibo"))).

(** [Prüfung (?P<last_name>[A-ZÄÖÜ][a-zäöüß]+)] *)
Definition exam : regex :=
  Cat (L "Prüfung ") (Grp "last_name" (Cat (Cls upper) (plus (Cls lower)))).
End Patterns.
End _InfoParsers.

(** ** [strptime]

    [datetime.datetime.strptime(data_string, "%d.%m.%Y").date()]: the format
    becomes the pattern below ([_strptime] of the standard library), which
    must match the whole string; day, month and year are read with [int] and
    must name a day of the calendar.  Anything else is a [ValueError]. *)

Section Strptime.
Context {U : UnicodeData}.

(** [(?P<d>3[0-1]|[1-2]\d|0[1-9]|[1-9]| [1-9])\.(?P<m>1[0-2]|0[1-9]|[1-9])\.(?P<Y>\d\d\d\d)] *)
Definition format_regex : regex :=
  cat [Grp "d" (Alt (Cat (L "3") (Cls (in_range "0" "1")))
               (Alt (Cat (Cls (in_range "1" "2")) (Cls digit))
               (Alt (Cat (L "0") (Cls (in_range "1" "9")))
               (Alt (Cls (in_range "1" "9"))
                    (Cat (L " ") (Cls (in_range "1" "9")))))));
       L ".";
       Grp "m" (Alt (Cat (L "1") (Cls (in_range "0" "2")))
               (Alt (Cat (L "0") (Cls (in_range "1" "9")))
                    (Cls (in_range "1" "9"))));
       L ".";
       Grp "Y" (cat [Cls digit; Cls digit; Cls digit; Cls digit])].

Definition strptime_dmY (data_string : str) : result Date :=
  match re_match format_regex data_string with
  | Some found =>
      if m_end found =? List.length data_string then
        let y := int_of (group_of found "Y") in
        let m := int_of (group_of found "m") in
        let d := int_of (group_of found "d") in
        if (1 <=? y)%Z && (y <=? 9999)%Z && (1 <=? m)%Z && (m <=? 12)%Z
           && (1 <=? d)%Z && (d <=? days_in_month y m)%Z
        then Ok {| year := y; month := m; day := d |}
        else Raise ValueError
      else Raise ValueError
  | None => Raise ValueError
  end.
End Strptime.

(** ** The message model *)

(** [typing.Literal["forms", "teachers", "rooms"]] *)
Inductive plan_type := PT_forms | PT_teachers | PT_rooms.

Definition plan_type_eqb (a b : plan_type) : bool :=
  match a, b with
  | PT_forms, PT_forms | PT_teachers, PT_teachers | PT_rooms, PT_rooms => true
  | _, _ => false
  end.

Definition plan_type_str (t : plan_type) : str :=
  match t with
  | PT_forms => py "forms"
  | PT_teachers => py "teachers"
  | PT_rooms => py "rooms"
  end.

(** The fields of [AbstractParsedLessonInfoMessageWithCourseInfo]. *)
Record CourseInfo := {
  course : str;
  plan_type_of : plan_type;
  plan_value : pyset str;
  other_info_value : option (pyset str);
  _teachers : option (pyset str)
}.

(** The classes derived from [ParsedLessonInfoMessage], with their dataclass
    fields. *)
Inductive Parsed :=
| MovedFrom (plan_type : plan_type) (plan_value : pyset str) (periods : pyset Z)
            (date : option Date)
| MovedTo (info : CourseInfo) (date : option Date) (periods : pyset Z)
| InsteadOfCourse (info : CourseInfo) (periods : pyset Z)
| Cancelled (info : CourseInfo) (periods : pyset Z)
| DoIndependently
| TasksInLernsax
| TasksWereGiven
| DoAtLocation (location : str)
| IndividualRevision (location : option str)
| Exam (last_name : str)
| WholeForm (form : str) (periods : pyset Z)
| FailedToParse.

(** A message object: the variant and the attributes [_parse_message] sets on
    every instance. *)
Record ParsedLessonInfoMessage := {
  variant : Parsed;
  before : str;
  after : str;
  original_messages : list str
}.

Record LessonInfoMessage := { parsed : ParsedLessonInfoMessage; index : Z }.

Record LessonInfoParagraph := { messages : list LessonInfoMessage; paragraph_index : Z }.

Record ParsedLessonInfo := { paragraphs : list LessonInfoParagraph }.

(** [models.Lesson], as far as the engine reads it. *)
Record ClassData := { number : option str }.

Record Lesson := {
  forms : pyset str;
  periods : pyset Z;
  teachers : option (pyset str);
  _lesson_date : Date;
  _is_scheduled : bool;
  class_opt : ClassData;
  parsed_info : ParsedLessonInfo
}.

(** The helpers of [vplan_utils] and [typography_fixer], modules outside the
    sources at hand. *)
Class Helpers := {
  _parse_form_pattern : regex;
  parse_periods : str -> pyset Z;
  forms_to_str : option (pyset str) -> result str;
  fix_typography : str -> str
}.

(** ** The grammar cascade *)

Section Cascade.
Context {U : UnicodeData} {H : Helpers}.

Definition course_info_of (m : Match) (lesson : Lesson) : CourseInfo :=
  {| course := group_of m "course";
     plan_type_of := PT_forms;
     plan_value := forms lesson;
     other_info_value := None;
     _teachers := Some (set_of_list str_eqb (split_on (chr ",") (group_of m "teachers"))) |}.

(** [datetime.datetime.strptime(f'{match.group("date")}{lesson._lesson_date.year}',
    "%d.%m.%Y").date()] *)
Definition date_of (m : Match) (lesson : Lesson) : result Date :=
  strptime_dmY (group_of m "date" ++ str_of_Z (year (_lesson_date lesson))).

Definition _parse_form_plan_message (info : str) (lesson : Lesson)
  : result (Parsed * option Match) :=
  match re_match _InfoParsers.substitution info with
  | Some m => Ok (InsteadOfCourse (course_info_of m lesson) (periods lesson), Some m)
  | None =>
  match re_match _InfoParsers.moved_from info with
  | Some m =>
      Ok (MovedFrom PT_forms (forms lesson) [int_of (group_of m "period_begin")] None,
          Some m)
  | None =>
  match re_match _InfoParsers.instead_of info with
  | Some m =>
      d <- date_of m lesson ;;
      Ok (MovedFrom PT_forms (forms lesson) (parse_periods (group_of m "periods")) (Some d),
          Some m)
  | None =>
  match re_match _InfoParsers.held_at info with
  | Some m =>
      d <- date_of m lesson ;;
      Ok (MovedTo (course_info_of m lesson) (Some d) (parse_periods (group_of m "periods")),
          Some m)
  | None =>
  match re_match _InfoParsers.moved_to info with
  | Some m =>
      Ok (MovedTo (course_info_of m lesson) None (parse_periods (group_of m "periods")),
          Some m)
  | None =>
  match re_match _InfoParsers.moved_to_date info with
  | Some m =>
      d <- date_of m lesson ;;
      Ok (MovedTo (course_info_of m lesson) (Some d) (parse_periods (group_of m "periods")),
          Some m)
  | None =>
  match re_match _InfoParsers.cancelled info with
  | Some m => Ok (Cancelled (course_info_of m lesson) (periods lesson), Some m)
  | None =>
  match re_search _InfoParsers.exam info with
  | Some m => Ok (Exam (group_of m "last_name"), Some m)
  | None =>
  match re_search _InfoParsers.do_where info with
  | Some m => Ok (DoAtLocation (strip (group_of m "1")), Some m)
  | None =>
  match re_search _InfoParsers.individual_revision info with
  | Some m => Ok (IndividualRevision (m_group m "location"), Some m)
  | None =>
  match re_search (_InfoParsers.whole_form _parse_form_pattern) info with
  | Some m => Ok (WholeForm (remove_char (chr " ") (group_of m "form")) (periods lesson), Some m)
  | None =>
  match re_search _InfoParsers.independent info with
  | Some m => Ok (DoIndependently, Some m)
  | None =>
  match re_search _InfoParsers.tasks_in_lernsax info with
  | Some m => Ok (TasksInLernsax, Some m)
  | None =>
  match re_search _InfoParsers.tasks_were_given info with
  | Some m => Ok (TasksWereGiven, Some m)
  | None => Ok (FailedToParse, None)
  end end end end end end end end end end end end end end.

(** [re.sub(r"(?<=\w)/ ", "/", info)]: every "/ " that follows a word
    character loses its space.  Each replacement consumes two characters, so
    as many rounds as the text has characters are enough. *)
Definition slash_space : regex := Cat (Behind word) (L "/ ").

Fixpoint sub_slash_space (fuel : nat) (info : str) (i : nat) : str :=
  match fuel with
  | O => skipn i info
  | S fuel' =>
      match search_from slash_space info i (List.length info - i) with
      | Some m =>
          slice info i (m_start m) ++ py "/" ++ sub_slash_space fuel' info (m_end m)
      | None => skipn i info
      end
  end.

Definition _parse_message (info : str) (lesson : Lesson) (plan_type : plan_type)
  : result ParsedLessonInfoMessage :=
  let info := strip info in
  let info := sub_slash_space (List.length info) info 0 in
  pm <- (match plan_type with
         | PT_forms => _parse_form_plan_message info lesson
         | _ => Ok (FailedToParse, None)
         end) ;;
  match snd pm with
  | Some m =>
      Ok {| variant := fst pm;
            original_messages := [slice info (m_start m) (m_end m)];
            before := firstn (m_start m) info;
            after := skipn (m_end m) info |}
  | None =>
      Ok {| variant := fst pm;
            original_messages := [info];
            before := [];
            after := [] |}
  end.
End Cascade.

(** ** The cascade as a priority list

    The rules in the order the specification lists them, each with its
    pattern, the variant it builds and the way the source applies it. *)

Inductive rule :=
| r_substitution | r_moved_from | r_instead_of | r_held_at | r_moved_to
| r_moved_to_date | r_cancelled | r_exam | r_do_where | r_individual_revision
| r_whole_form | r_independent | r_tasks_in_lernsax | r_tasks_were_given.

Definition priority : list rule :=
  [r_substitution; r_moved_from; r_instead_of; r_held_at; r_moved_to;
   r_moved_to_date; r_cancelled; r_exam; r_do_where; r_individual_revision;
   r_whole_form; r_independent; r_tasks_in_lernsax; r_tasks_were_given].

Inductive kind :=
| k_InsteadOfCourse | k_MovedFrom | k_MovedTo | k_Cancelled | k_Exam
| k_DoAtLocation | k_IndividualRevision | k_WholeForm | k_DoIndependently
| k_TasksInLernsax | k_TasksWereGiven | k_FailedToParse.

Definition kind_of (p : Parsed) : kind :=
  match p with
  | MovedFrom _ _ _ _ => k_MovedFrom
  | MovedTo _ _ _ => k_MovedTo
  | InsteadOfCourse _ _ => k_InsteadOfCourse
  | Cancelled _ _ => k_Cancelled
  | DoIndependently => k_DoIndependently
  | TasksInLernsax => k_TasksInLernsax
  | TasksWereGiven => k_TasksWereGiven
  | DoAtLocation _ => k_DoAtLocation
  | IndividualRevision _ => k_IndividualRevision
  | Exam _ => k_Exam
  | WholeForm _ _ => k_WholeForm
  | FailedToParse => k_FailedToParse
  end.

Definition rule_kind (r : rule) : kind :=
  match r with
  | r_substitution => k_InsteadOfCourse
  | r_moved_from | r_instead_of => k_MovedFrom
  | r_held_at | r_moved_to | r_moved_to_date => k_MovedTo
  | r_cancelled => k_Cancelled
  | r_exam => k_Exam
  | r_do_where => k_DoAtLocation
  | r_individual_revision => k_IndividualRevision
  | r_whole_form => k_WholeForm
  | r_independent => k_DoIndependently
  | r_tasks_in_lernsax => k_TasksInLernsax
  | r_tasks_were_given => k_TasksWereGiven
  end.

(** The rules whose pattern captures a [dd.mm.] date. *)
Definition captures_date (r : rule) : bool :=
  match r with
  | r_instead_of | r_held_at | r_moved_to_date => true
  | _ => false
  end.

(** The first seven rules are applied with [match], the others with [search]. *)
Definition anchored (r : rule) : bool :=
  match r with
  | r_substitution | r_moved_from | r_instead_of | r_held_at | r_moved_to
  | r_moved_to_date | r_cancelled => true
  | _ => false
  end.

Section Priority.
Context {U : UnicodeData} {H : Helpers}.

Definition pattern_of (r : rule) : regex :=
  match r with
  | r_substitution => _InfoParsers.substitution
  | r_moved_from => _InfoParsers.moved_from
  | r_instead_of => _InfoParsers.instead_of
  | r_held_at => _InfoParsers.held_at
  | r_moved_to => _InfoParsers.moved_to
  | r_moved_to_date => _InfoParsers.moved_to_date
  | r_cancelled => _InfoParsers.cancelled
  | r_exam => _InfoParsers.exam
  | r_do_where => _InfoParsers.do_where
  | r_individual_revision => _InfoParsers.individual_revision
  | r_whole_form => _InfoParsers.whole_form _parse_form_pattern
  | r_independent => _InfoParsers.independent
  | r_tasks_in_lernsax => _InfoParsers.tasks_in_lernsax
  | r_tasks_were_given => _InfoParsers.tasks_were_given
  end.

(** A rule tried at the start of the text. *)
Definition at_start (r : rule) (text : str) : option Match :=
  re_match (pattern_of r) text.

(** A rule tried the way the source tries it. *)
Definition applies (r : rule) (text : str) : option Match :=
  if anchored r then re_match (pattern_of r) text else re_search (pattern_of r) text.

(** The first rule of a list that matches, with its match. *)
Fixpoint first_rule (try : rule -> str -> option Match) (rs : list rule) (text : str)
  : option (rule * Match) :=
  match rs with
  | [] => None
  | r :: rs' =>
      match try r text with
      | Some m => Some (r, m)
      | None => first_rule try rs' text
      end
  end.

(** The text the rules see: trimmed, and with "/ " after a word character
    contracted to "/". *)
Definition normalized (info : str) : str :=
  sub_slash_space (List.length (strip info)) (strip info) 0.

(** The fallback message for a text. *)
Definition failed_to_parse (text : str) : ParsedLessonInfoMessage :=
  {| variant := FailedToParse; before := []; after := []; original_messages := [text] |}.

End Priority.

(** The grammar cascade with every rule tried at the start of the trimmed
    text: the first rule that matches there gives the variant, and a text no
    rule matches at its start comes back whole as [FailedToParse]. *)
Definition cascade_at_start : Prop :=
  forall (U : UnicodeData) (H : Helpers) (info : str) (lesson : Lesson),
    match first_rule at_start priority (strip info) with
    | Some (r, m) =>
        exists msg, _parse_message info lesson PT_forms = Ok msg
                    /\ kind_of (variant msg) = rule_kind r
    | None =>
        _parse_message info lesson PT_forms = Ok (failed_to_parse (strip info))
    end.

(** ** The segmenter *)

(** The bracket pairs: opening character and the closing text pushed for it. *)
Definition parens_map := list (char * str).

Definition default_parens : parens_map := [(chr "(", py ")")].

Fixpoint parens_get (c : char) (parens : parens_map) : option str :=
  match parens with
  | [] => None
  | (o, closing) :: rest => if char_eqb c o then Some closing else parens_get c rest
  end.

(** [parens_stack[-1]]: the stack is kept with its top in front. *)
Definition is_top (c : char) (parens_stack : list str) : bool :=
  match parens_stack with
  | top :: _ => str_eqb [c] top
  | [] => false
  end.

Definition is_empty {A} (l : list A) : bool :=
  match l with
  | [] => true
  | _ => false
  end.

(** The first loop of [split_parens_aware], from index [i] on: the indexes of
    the separators met with an empty stack. *)
Fixpoint sep_indexes_from (parens : parens_map) (sep : char) (parens_stack : list str)
         (i : nat) (string : str) : list nat :=
  match string with
  | [] => []
  | c :: rest =>
      match parens_get c parens with
      | Some closing => sep_indexes_from parens sep (closing :: parens_stack) (S i) rest
      | None =>
          if negb (is_empty parens_stack) && is_top c parens_stack
          then sep_indexes_from parens sep (tl parens_stack) (S i) rest
          else if char_eqb c sep && is_empty parens_stack
               then i :: sep_indexes_from parens sep parens_stack (S i) rest
               else sep_indexes_from parens sep parens_stack (S i) rest
      end
  end.

(** The second loop: the pieces between the separator indexes. *)
Fixpoint pieces (string : str) (start_index : nat) (sep_indexes : list nat) : list str :=
  match sep_indexes with
  | [] => [skipn start_index string]
  | sep_index :: rest =>
      slice string start_index sep_index :: pieces string (sep_index + 1) rest
  end.

(** [parens = {"(": ")"} if parens is None else parens] *)
Definition parens_or_default (parens : option parens_map) : parens_map :=
  match parens with
  | None => default_parens
  | Some p => p
  end.

(** The split points of a string. *)
Definition sep_indexes (string : str) (sep : char) (parens : option parens_map) : list nat :=
  sep_indexes_from (parens_or_default parens) sep [] 0 string.

Definition split_parens_aware (string : str) (sep : char) (parens : option parens_map)
  : list str :=
  pieces string 0 (sep_indexes string sep parens).

(** The bracket stack the scan holds after reading a text, and the stack it
    holds on reaching an index of a string. *)
Fixpoint stack_after (parens : parens_map) (parens_stack : list str) (string : str)
  : list str :=
  match string with
  | [] => parens_stack
  | c :: rest =>
      match parens_get c parens with
      | Some closing => stack_after parens (closing :: parens_stack) rest
      | None =>
          if negb (is_empty parens_stack) && is_top c parens_stack
          then stack_after parens (tl parens_stack) rest
          else stack_after parens parens_stack rest
      end
  end.

Definition stack_at (parens : option parens_map) (string : str) (i : nat) : list str :=
  stack_after (parens_or_default parens) [] (firstn i string).

(** The indexes a scan returns: increasing from [start], each one holding the
    separator. *)
Inductive split_points (string : str) (sep : char) : nat -> list nat -> Prop :=
| sp_nil start : split_points string sep start []
| sp_cons start i rest :
    start <= i -> nth_error string i = Some sep ->
    split_points string sep (S i) rest ->
    split_points string sep start (i :: rest).

(** The segmenter as the specification states it: the pieces join back to the string,
    and an occurrence of the separator is a split point exactly when the stack
    is empty there. *)
Definition splits_where_stack_empty : Prop :=
  forall (string : str) (sep : char) (parens : option parens_map),
    join [sep] (split_parens_aware string sep parens) = string
    /\ forall i, In i (sep_indexes string sep parens)
                 <-> nth_error string i = Some sep /\ stack_at parens string i = [].

(** ** Text segments and rendering *)

Module Link.
(** [LessonInfoTextSegmentLink] *)
Record t := {
  type : plan_type;
  value : list str;
  date : option Date;
  periods : option (list Z)
}.
End Link.

Record LessonInfoTextSegment := { text : str; link : option Link.t }.

Definition plain (s : str) : LessonInfoTextSegment := {| text := s; link := None |}.

(** [blocks.BlockConfiguration], an argument of the rendering functions. *)
Record BlockConfiguration := { get_label_of_periods : pyset Z -> str }.

Definition get_other_info_type_of_plan_type (t : plan_type) : plan_type :=
  match t with
  | PT_forms => PT_teachers
  | PT_teachers => PT_forms
  | PT_rooms => PT_forms
  end.

Definition other_info_type (ci : CourseInfo) : plan_type :=
  get_other_info_type_of_plan_type (plan_type_of ci).

(** Truth value of a set or [None]. *)
Definition truthy {A} (s : option (list A)) : bool :=
  match s with
  | Some (_ :: _) => true
  | _ => false
  end.

Definition original_other_info_value (ci : CourseInfo) : option (pyset str) :=
  if truthy (_teachers ci) then _teachers ci else other_info_value ci.

Section Rendering.
Context {H : Helpers}.

Definition _course_text_segments (ci : CourseInfo) (date : option Date)
           (periods : option (list Z)) : result (list LessonInfoTextSegment) :=
  other_info_value_text <-
    (match other_info_type ci with
     | PT_forms => forms_to_str (other_info_value ci)
     | _ => match original_other_info_value ci with
            | Some s => Ok (join (py ", ") s)
            | None => Raise TypeError
            end
     end) ;;
  Ok [plain (course ci ++ py " ");
      {| text := other_info_value_text;
         link := match other_info_value ci with
                 | Some v =>
                     if is_empty v then None
                     else Some {| Link.type := other_info_type ci;
                                  Link.value := sorted_str v;
                                  Link.date := date;
                                  Link.periods := periods |}
                 | None => None
                 end |}].

(** The text "Mo (05.06.2023) <label>" of a dated target. *)
Definition dated_label (block_config : BlockConfiguration) (d : Date) (ps : pyset Z) : str :=
  de_weekday_to_str (weekday d) ++ py " (" ++ strftime_dmY d ++ py ") "
    ++ get_label_of_periods block_config ps.

Definition target_link (t : plan_type) (v : pyset str) (d : Date) (ps : pyset Z) : Link.t :=
  {| Link.type := t; Link.value := sorted_str v; Link.date := Some d;
     Link.periods := Some (sorted_int ps) |}.

Definition MovedFrom_to_text_segments (t : plan_type) (v : pyset str) (ps : pyset Z)
           (date : option Date) (lesson_date : Date) (block_config : BlockConfiguration)
  : list LessonInfoTextSegment :=
  match date with
  | None =>
      [plain (py "verlegt von ");
       {| text := get_label_of_periods block_config ps;
          link := Some (target_link t v lesson_date ps) |}]
  | Some d =>
      [plain (py "statt ");
       {| text := dated_label block_config d ps;
          link := Some (target_link t v d ps) |}]
  end.

Definition MovedTo_to_text_segments (ci : CourseInfo) (date : option Date) (ps : pyset Z)
           (lesson_date : Date) (block_config : BlockConfiguration)
  : result (list LessonInfoTextSegment) :=
  match date with
  | None =>
      cs <- _course_text_segments ci (Some lesson_date) None ;;
      Ok (cs ++ [plain (py " verlegt nach ");
                 {| text := get_label_of_periods block_config ps;
                    link := Some (target_link (plan_type_of ci) (plan_value ci)
                                              lesson_date ps) |}])
  | Some d =>
      if Date_ltb d lesson_date then
        cs <- _course_text_segments ci (Some d) (Some (sorted_int ps)) ;;
        Ok (cs ++ [plain (py " gehalten am ");
                   {| text := dated_label block_config d ps;
                      link := Some (target_link (plan_type_of ci) (plan_value ci) d ps) |}])
      else
        cs <- _course_text_segments ci (Some d) (Some (sorted_int ps)) ;;
        Ok (cs ++ [plain (py " verlegt nach ");
                   {| text := dated_label block_config d ps;
                      link := Some (target_link (plan_type_of ci) (plan_value ci) d ps) |}])
  end.

(** [_to_text_segments], by class; the classes that do not override it take
    the one of [ParsedLessonInfoMessage]. *)
Definition _to_text_segments (self : ParsedLessonInfoMessage) (lesson_date : Date)
           (block_config : BlockConfiguration) : result (list LessonInfoTextSegment) :=
  match variant self with
  | MovedFrom t v ps date => Ok (MovedFrom_to_text_segments t v ps date lesson_date block_config)
  | MovedTo ci date ps => MovedTo_to_text_segments ci date ps lesson_date block_config
  | InsteadOfCourse ci ps =>
      cs <- _course_text_segments ci (Some lesson_date) (Some (sorted_int ps)) ;;
      Ok (plain (py "für ") :: cs)
  | Cancelled ci ps =>
      cs <- _course_text_segments ci (Some lesson_date) (Some (sorted_int ps)) ;;
      Ok (cs ++ [plain (py " fällt aus")])
  | WholeForm form ps =>
      Ok [plain (py "gesamte ");
          {| text := py "Klasse " ++ form;
             link := Some {| Link.type := PT_forms; Link.value := [form];
                             Link.date := Some lesson_date;
                             Link.periods := Some (sorted_int ps) |} |}]
  | FailedToParse =>
      Ok [plain (fix_typography (join (py ", ") (original_messages self)))]
  | _ => Ok [plain (join [10%N] (original_messages self))]
  end.

Definition to_text_segments (self : ParsedLessonInfoMessage) (lesson_date : Date)
           (block_config : BlockConfiguration) : result (list LessonInfoTextSegment) :=
  segs <- _to_text_segments self lesson_date block_config ;;
  Ok ((if is_empty (before self) then [] else [plain (before self)])
        ++ segs
        ++ (if is_empty (after self) then [] else [plain (after self)])).
End Rendering.

(** ** Serialisation *)

(** The values [serialize] builds. *)
#[local] Set Warnings "-register-all".
Inductive json :=
| JNull
| JStr (s : str)
| JInt (z : Z)
| JList (l : list json)
| JDict (d : list (string * json)).

(** The values the fields of a message hold. *)
Inductive value :=
| VNone
| VStr (s : str)
| VDate (d : Date)
| VSetStr (s : pyset str)
| VSetInt (s : pyset Z)
| VListStr (l : list str)
| VListInt (l : list Z).

Definition opt_value {A} (f : A -> value) (o : option A) : value :=
  match o with
  | Some a => f a
  | None => VNone
  end.

(** [convert] of [SerializeMixin.serialize] *)
Definition convert (obj : value) : json :=
  match obj with
  | VDate d => JStr (isoformat d)
  | VSetStr s => JList (map JStr (sorted_str s))
  | VSetInt s => JList (map JInt (sorted_int s))
  | VNone => JNull
  | VStr s => JStr s
  | VListStr l => JList (map JStr l)
  | VListInt l => JList (map JInt l)
  end.

(** [d[k] = v] on a dictionary: an existing key keeps its place. *)
Fixpoint dict_set {K V} (eqb : K -> K -> bool) (k : K) (v : V) (d : list (K * V))
  : list (K * V) :=
  match d with
  | [] => [(k, v)]
  | (k', v') :: d' => if eqb k k' then (k, v) :: d' else (k', v') :: dict_set eqb k v d'
  end.

(** [{"type": t, **fields}] *)
Definition with_type (t : json) (fields : list (string * json)) : list (string * json) :=
  fold_left (fun d kv => dict_set String.eqb (fst kv) (snd kv) d) fields [("type"%string, t)].

Definition CourseInfo_asdict (ci : CourseInfo) : list (string * value) :=
  [("course"%string, VStr (course ci));
   ("plan_type"%string, VStr (plan_type_str (plan_type_of ci)));
   ("plan_value"%string, VSetStr (plan_value ci));
   ("other_info_value"%string, opt_value VSetStr (other_info_value ci));
   ("_teachers"%string, opt_value VSetStr (_teachers ci))].

(** [dataclasses.asdict(self)]: the dataclass fields of each class, those of
    the base class first. *)
Definition asdict (p : Parsed) : list (string * value) :=
  match p with
  | MovedFrom t v ps date =>
      [("plan_type"%string, VStr (plan_type_str t)); ("plan_value"%string, VSetStr v);
       ("periods"%string, VSetInt ps); ("date"%string, opt_value VDate date)]
  | MovedTo ci date ps =>
      CourseInfo_asdict ci
        ++ [("date"%string, opt_value VDate date); ("periods"%string, VSetInt ps)]
  | InsteadOfCourse ci ps => CourseInfo_asdict ci ++ [("periods"%string, VSetInt ps)]
  | Cancelled ci ps => CourseInfo_asdict ci ++ [("periods"%string, VSetInt ps)]
  | DoIndependently | TasksInLernsax | TasksWereGiven =>
      [("plan_type"%string, VStr (py "forms"))]
  | DoAtLocation location =>
      [("location"%string, VStr location); ("plan_type"%string, VStr (py "forms"))]
  | IndividualRevision location =>
      [("location"%string, opt_value VStr location); ("plan_type"%string, VStr (py "forms"))]
  | Exam last_name => [("last_name"%string, VStr last_name)]
  | WholeForm form ps => [("form"%string, VStr form); ("periods"%string, VSetInt ps)]
  | FailedToParse => []
  end.

(** [self.__class__.__name__] *)
Definition class_name (p : Parsed) : str :=
  match p with
  | MovedFrom _ _ _ _ => py "MovedFrom"
  | MovedTo _ _ _ => py "MovedTo"
  | InsteadOfCourse _ _ => py "InsteadOfCourse"
  | Cancelled _ _ => py "Cancelled"
  | DoIndependently => py "DoIndependently"
  | TasksInLernsax => py "TasksInLernsax"
  | TasksWereGiven => py "TasksWereGiven"
  | DoAtLocation _ => py "DoAtLocation"
  | IndividualRevision _ => py "IndividualRevision"
  | Exam _ => py "Exam"
  | WholeForm _ _ => py "WholeForm"
  | FailedToParse => py "FailedToParse"
  end.

(** [SerializeMixin.serialize] on a message *)
Definition Parsed_serialize (p : Parsed) : json :=
  JDict (with_type (JStr (class_name p)) (map (fun kv => (fst kv, convert (snd kv))) (asdict p))).

(** [SerializeMixin.serialize] on a link, whose [__serialize_type__] is its
    [type] field *)
Definition Link_serialize (l : Link.t) : json :=
  JDict (with_type (JStr (plan_type_str (Link.type l)))
           (map (fun kv => (fst kv, convert (snd kv)))
                [("type"%string, VStr (plan_type_str (Link.type l)));
                 ("value"%string, VListStr (Link.value l));
                 ("date"%string, opt_value VDate (Link.date l));
                 ("periods"%string, opt_value VListInt (Link.periods l))])).

Definition LessonInfoTextSegment_serialize (s : LessonInfoTextSegment) : json :=
  JDict [("text"%string, JStr (text s));
         ("link"%string, match link s with
                         | Some l => Link_serialize l
                         | None => JNull
                         end)].

Definition is_FailedToParse (p : Parsed) : bool :=
  match p with
  | FailedToParse => true
  | _ => false
  end.

Section Serialize.
Context {H : Helpers}.

Definition LessonInfoMessage_serialize (self : LessonInfoMessage) (lesson_date : Date)
           (block_config : BlockConfiguration) : result json :=
  let parsed_json :=
    if negb (is_FailedToParse (variant (parsed self)))
    then Parsed_serialize (variant (parsed self)) else JNull in
  segs <- to_text_segments (parsed self) lesson_date block_config ;;
  Ok (JDict [("parsed"%string, parsed_json);
             ("text_segments"%string, JList (map LessonInfoTextSegment_serialize segs))]).
End Serialize.

(** ** Grouping *)

(** Attribute reads on a message of any class: a class without the attribute
    raises [AttributeError]. *)
Definition get_date (p : Parsed) : result (option Date) :=
  match p with
  | MovedFrom _ _ _ d => Ok d
  | MovedTo _ d _ => Ok d
  | _ => Raise AttributeError
  end.

Definition get_plan_type (p : Parsed) : option plan_type :=
  match p with
  | MovedFrom t _ _ _ => Some t
  | MovedTo ci _ _ | InsteadOfCourse ci _ | Cancelled ci _ => Some (plan_type_of ci)
  | DoIndependently | TasksInLernsax | TasksWereGiven | DoAtLocation _
  | IndividualRevision _ => Some PT_forms
  | Exam _ | WholeForm _ _ | FailedToParse => None
  end.

Definition get_course_info (p : Parsed) : result CourseInfo :=
  match p with
  | MovedTo ci _ _ | InsteadOfCourse ci _ | Cancelled ci _ => Ok ci
  | _ => Raise AttributeError
  end.

Definition opt_plan_type_eqb (a b : option plan_type) : bool :=
  match a, b with
  | None, None => true
  | Some x, Some y => plan_type_eqb x y
  | _, _ => false
  end.

(** [a and b], [b] read only when [a] holds *)
Definition and_then (a : bool) (b : result bool) : result bool :=
  if a then b else Ok false.

(** [self.is_groupable(other)]: [MovedFrom] and [MovedTo] define the method,
    the other classes have none. *)
Definition is_groupable (self other : ParsedLessonInfoMessage) : result bool :=
  match variant self with
  | MovedFrom t _ _ date =>
      and_then (str_eqb (before self) (before other))
        (and_then (str_eqb (after self) (after other))
           (d <- get_date (variant other) ;;
            and_then (opt_Date_eqb date d)
              (Ok (opt_plan_type_eqb (Some t) (get_plan_type (variant other))))))
  | MovedTo ci date _ =>
      ci' <- get_course_info (variant other) ;;
      and_then (str_eqb (course ci) (course ci'))
        (and_then (opt_set_eqb str_eqb (original_other_info_value ci)
                               (original_other_info_value ci'))
           (d <- get_date (variant other) ;;
            and_then (opt_Date_eqb date d)
              (Ok (opt_plan_type_eqb (Some (plan_type_of ci))
                                     (get_plan_type (variant other))))))
  | _ => Raise AttributeError
  end.

(** ** Canonical order *)

Definition messages_ltb : list str -> list str -> bool := list_ltb str_eqb str_ltb.

Definition paragraph_key (p : LessonInfoParagraph) : list (list str) :=
  map (fun i => original_messages (parsed i)) (messages p).

Definition paragraphs_ltb : list (list str) -> list (list str) -> bool :=
  list_ltb (list_eqb str_eqb) messages_ltb.

Definition LessonInfoParagraph_sorted {K} (ltb : K -> K -> bool)
           (key : LessonInfoMessage -> K) (p : LessonInfoParagraph) : LessonInfoParagraph :=
  {| messages := sorted_by ltb key (messages p); paragraph_index := paragraph_index p |}.

Definition sorted_canonical (self : ParsedLessonInfo) : ParsedLessonInfo :=
  let paragraphs :=
    map (LessonInfoParagraph_sorted messages_ltb (fun i => original_messages (parsed i)))
        (paragraphs self) in
  {| paragraphs := sorted_by paragraphs_ltb paragraph_key paragraphs |}.

Definition lesson_group_sort_key (self : ParsedLessonInfo) : list (list (list str)) :=
  map (fun paragraph => map (fun message => original_messages (parsed message))
                            (messages paragraph))
      (paragraphs (sorted_canonical self)).

(** ** Teacher resolution *)

(** [teacher.Teacher], with the fields the engine sets; a field the
    constructor call leaves out is [None]. *)
Record Teacher := {
  plan_short : str;
  plan_long : option str;
  last_seen : Date;
  first_seen : Date
}.

(** [teacher.Teachers], the directory: the lookup either returns the entry or
    raises. *)
Record Teachers := { query_plan_teacher : str -> option Date -> result Teacher }.

Definition set_other_info_value (ci : CourseInfo) (v : option (pyset str)) : CourseInfo :=
  {| course := course ci; plan_type_of := plan_type_of ci; plan_value := plan_value ci;
     other_info_value := v; _teachers := _teachers ci |}.

(** The set comprehension of [resolve_teachers]; iterating [None] is a
    [TypeError]. *)
Definition resolved_set (dir : Teachers) (date : option Date) (ts : option (pyset str))
  : result (pyset str) :=
  match ts with
  | Some l =>
      shorts <- mapM (fun teacher_str =>
                        t <- query_plan_teacher dir teacher_str date ;; Ok (plan_short t)) l ;;
      Ok (set_of_list str_eqb shorts)
  | None => Raise TypeError
  end.

(** The [try] statement on one message that has the attribute [_teachers]. *)
Definition resolve_course_info (dir : Teachers) (date : option Date) (ci : CourseInfo)
  : result CourseInfo :=
  match resolved_set dir date (_teachers ci) with
  | Ok v => Ok (set_other_info_value ci (Some v))
  | Raise e => if is_LookupError e then Ok (set_other_info_value ci None) else Raise e
  end.

Definition resolve_parsed (dir : Teachers) (date : option Date) (p : Parsed) : result Parsed :=
  match p with
  | MovedTo ci d ps => ci' <- resolve_course_info dir date ci ;; Ok (MovedTo ci' d ps)
  | InsteadOfCourse ci ps => ci' <- resolve_course_info dir date ci ;; Ok (InsteadOfCourse ci' ps)
  | Cancelled ci ps => ci' <- resolve_course_info dir date ci ;; Ok (Cancelled ci' ps)
  | _ => Ok p
  end.

Definition resolve_message (dir : Teachers) (date : option Date) (message : LessonInfoMessage)
  : result LessonInfoMessage :=
  p <- resolve_parsed dir date (variant (parsed message)) ;;
  Ok {| parsed := {| variant := p;
                     before := before (parsed message);
                     after := after (parsed message);
                     original_messages := original_messages (parsed message) |};
        index := index message |}.

Definition resolve_paragraph (dir : Teachers) (date : option Date) (p : LessonInfoParagraph)
  : result LessonInfoParagraph :=
  ms <- mapM (resolve_message dir date) (messages p) ;;
  Ok {| messages := ms; paragraph_index := paragraph_index p |}.

(** [ParsedLessonInfo.resolve_teachers]: the object after the in-place
    updates, or the exception that leaves the method. *)
Definition resolve_teachers (self : ParsedLessonInfo) (dir : Teachers) (date : option Date)
  : result ParsedLessonInfo :=
  ps <- mapM (resolve_paragraph dir date) (paragraphs self) ;;
  Ok {| paragraphs := ps |}.

(** ** Teacher inference *)

Module Class.
(** [models.Class] *)
Record t := {
  teacher : str;
  subject : str;
  group : option str;
  forms : pyset str
}.
End Class.

Definition classes_dict := list (str * Class.t).

(** [class_.group or class_.subject] *)
Definition group_or_subject (c : Class.t) : str :=
  match Class.group c with
  | Some g => if is_empty g then Class.subject c else g
  | None => Class.subject c
  end.

(** [{c.teacher for c in _class.values()}] *)
Definition teacher_set (_class : classes_dict) : pyset str :=
  set_of_list str_eqb (map (fun kv => Class.teacher (snd kv)) _class).

(** [_name.startswith(c.teacher[0])], guarded by [c.teacher] *)
Definition first_letter_matches (_name : str) (c : Class.t) : bool :=
  match Class.teacher c, _name with
  | a :: _, n :: _ => char_eqb n a
  | _, _ => false
  end.

(** The messages the loop of [extract_teachers] looks at: [other_info_value]
    is [None], and the attributes [course] and [_teachers] are there. *)
Definition unresolved_course (p : Parsed) : option (str * pyset str) :=
  match p with
  | MovedTo ci _ _ | InsteadOfCourse ci _ | Cancelled ci _ =>
      match other_info_value ci, _teachers ci with
      | None, Some ts => Some (course ci, ts)
      | _, _ => None
      end
  | _ => None
  end.

(** [c_id == lesson.class_opt.number] *)
Definition is_number (lesson : Lesson) (c_id : str) : bool :=
  match number (class_opt lesson) with
  | Some n => str_eqb c_id n
  | None => false
  end.

(** The messages of a parse, paragraph by paragraph. *)
Definition all_messages (info : ParsedLessonInfo) : list LessonInfoMessage :=
  flat_map messages (paragraphs info).

Section Inference.
Context {U : UnicodeData}.

(** The candidate classes of a course: group or subject first, the subject
    alone when that finds nothing. *)
Definition candidates (lesson : Lesson) (classes : classes_dict) (course : str)
  : classes_dict :=
  let _class :=
    filter (fun kv => str_eqb course (group_or_subject (snd kv))
                      && issubset str_eqb (forms lesson) (Class.forms (snd kv))) classes in
  if List.length _class =? 0
  then filter (fun kv => str_eqb course (Class.subject (snd kv))
                         && issubset str_eqb (forms lesson) (Class.forms (snd kv))) classes
  else _class.

(** The two narrowing steps, each taken only while several teachers are left. *)
Definition narrow_by_number (lesson : Lesson) (_class : classes_dict) : classes_dict :=
  if (1 <? List.length (teacher_set _class)) && truthy (number (class_opt lesson))
  then
    let new_classes :=
      filter (fun kv => is_number lesson (fst kv)) _class in
    if is_empty new_classes then _class else new_classes
  else _class.

Definition narrow_by_letter (_name : str) (_class : classes_dict) : classes_dict :=
  if 1 <? List.length (teacher_set _class)
  then filter (fun kv => first_letter_matches _name (snd kv)) _class
  else _class.

(** One pass of the inner loop: the record stored in [out], if any. *)
Definition infer_teacher (lesson : Lesson) (classes : classes_dict)
           (message : LessonInfoMessage) : result (option Teacher) :=
  match unresolved_course (variant (parsed message)) with
  | None => Ok None
  | Some (course, ts) =>
      match ts with
      | [] => Raise StopIteration
      | surname :: _ =>
          if List.length (split_ws surname) =? 1 then Ok None
          else
            let _class := candidates lesson classes course in
            match nth_error (split_ws surname) 1 with
            | None => Raise IndexError
            | Some _name =>
                let _class := narrow_by_number lesson _class in
                let _class := narrow_by_letter _name _class in
                if negb (List.length (teacher_set _class) =? 1) then Ok None
                else
                  match _class with
                  | [] => Raise IndexError
                  | kv :: _ =>
                      let abbreviation := Class.teacher (snd kv) in
                      if negb (existsb isalpha abbreviation) then Ok None
                      else Ok (Some {| plan_short := abbreviation;
                                       plan_long := Some surname;
                                       last_seen := _lesson_date lesson;
                                       first_seen := _lesson_date lesson |})
                  end
            end
      end
  end.

Definition out_dict := list (str * Teacher).

Fixpoint infer_messages (lesson : Lesson) (classes : classes_dict)
         (ms : list LessonInfoMessage) (out : out_dict) : result out_dict :=
  match ms with
  | [] => Ok out
  | message :: rest =>
      r <- infer_teacher lesson classes message ;;
      infer_messages lesson classes rest
        (match r with
         | Some t => dict_set str_eqb (plan_short t) t out
         | None => out
         end)
  end.

Definition extract_teachers (lesson : Lesson) (classes : classes_dict)
  : result (list Teacher) :=
  let out :=
    fold_left (fun out plan_short =>
                 dict_set str_eqb plan_short
                          {| plan_short := plan_short; plan_long := None;
                             last_seen := _lesson_date lesson;
                             first_seen := _lesson_date lesson |} out)
              (match teachers lesson with Some l => l | None => [] end) [] in
  if _is_scheduled lesson then Ok []
  else
    out <- infer_messages lesson classes (all_messages (parsed_info lesson)) out ;;
    Ok (map snd out).
End Inference.

(** ** The fuzzy linker *)

Section Fuzzy.
Variable validator : Match -> option (list LessonInfoTextSegment).

(** The [for] loop over the patterns at position [i]: the first match the
    validator accepts. *)
Fixpoint first_accepted (text : str) (i : nat) (patterns : list regex)
  : option (list LessonInfoTextSegment * Match) :=
  match patterns with
  | [] => None
  | pattern :: rest =>
      match match_at pattern text i with
      | None => first_accepted text i rest
      | Some m =>
          match validator m with
          | None => first_accepted text i rest
          | Some new_segments => Some (new_segments, m)
          end
      end
  end.

(** The [while] loop; [None] when the rounds allowed are used up. *)
Fixpoint fuzzy_loop (fuel : nat) (text : str) (patterns : list regex) (i : nat)
         (segments : list LessonInfoTextSegment) : option (list LessonInfoTextSegment) :=
  if i <? List.length text then
    match fuel with
    | O => None
    | S fuel' =>
        match first_accepted text i patterns with
        | Some (new_segments, m) =>
            fuzzy_loop fuel' text patterns (i + m_end m) (segments ++ new_segments)
        | None =>
            fuzzy_loop fuel' text patterns (i + 1) (segments ++ [plain (slice text i (S i))])
        end
    end
  else Some segments.

(** A round moves the cursor forward, save one that starts at 0 and accepts
    an empty match, on which the source loops for ever; a run that ends takes
    no more than [length text] rounds. *)
Definition add_fuzzy_with_validator (text : str) (patterns : list regex)
  : option (list LessonInfoTextSegment) :=
  fuzzy_loop (S (List.length text)) text patterns 0 [].
End Fuzzy.

(** The patterns of the teacher pass: [_InfoParsers._teacher] and [\b\w+\b]. *)
Definition teacher_pass_patterns {U : UnicodeData} : list regex :=
  [_InfoParsers._teacher; cat [Boundary word; plus (Cls word); Boundary word]].

(** [(?<!\S){r}(?=\s|[)!?:])] for a room name [r] free of pattern syntax *)
Definition room_pattern (r : str) : regex :=
  cat [NotBehind non_space; lit r; Ahead (Alt (Cls space) (Cls (one_of ")!?:")))].

Definition add_fuzzy_room_links (text : str) (rooms : pyset str) (date : Date)
  : option (list LessonInfoTextSegment) :=
  add_fuzzy_with_validator
    (fun m => let room := group0 m in
              Some [{| text := room;
                       link := Some {| Link.type := PT_rooms; Link.value := [room];
                                       Link.date := Some date; Link.periods := None |} |}])
    text (map room_pattern rooms).

(** The text fields of a list of segments, put together. *)
Definition texts (segments : list LessonInfoTextSegment) : str :=
  List.concat (map text segments).

(** ** Notions the statements below use *)

(** Modelled from the spec: [parse_periods], [_parse_form_pattern],
    [forms_to_str] and [fix_typography] belong to modules outside the sources
    at hand.  A period range "a-b" expands to the integers from a to b, a bare
    "a" to the one period; a form reads like "10/1"; a form list is shown
    joined by ", "; typography fixing leaves plain text as it is. *)
Definition spec_parse_periods (s : str) : pyset Z :=
  match split_on (chr "-") s with
  | [a] => [@int_of latin1 a]
  | [a; b] =>
      map (fun k => (@int_of latin1 a + Z.of_nat k)%Z)
          (seq 0 (Z.to_nat (@int_of latin1 b - @int_of latin1 a + 1)))
  | _ => []
  end.

Definition spec_helpers : Helpers :=
  {| _parse_form_pattern :=
       cat [Rep 1 (Some 2) (Cls (@digit latin1)); L "/"; Rep 1 (Some 2) (Cls (@digit latin1))];
     parse_periods := spec_parse_periods;
     forms_to_str := fun v => match v with
                              | Some l => Ok (join (py ", ") l)
                              | None => Raise TypeError
                              end;
     fix_typography := fun s => s |}.

(** [a < b] and [a <= b] on dates, as propositions. *)
Definition Date_lt (a b : Date) : Prop :=
  (year a < year b
   \/ (year a = year b
       /\ (month a < month b \/ (month a = month b /\ day a < day b))))%Z.

Definition Date_le (a b : Date) : Prop := Date_lt a b \/ a = b.

(** A day of the calendar of [datetime.date]. *)
Definition calendar_day (d : Date) : Prop :=
  (1 <= year d <= 9999 /\ 1 <= month d <= 12 /\ 1 <= day d <= days_in_month (year d) (month d))%Z.

(** A string of the digits 0 to 9 that reads as a number. *)
Definition reads (s : str) (n : Z) : Prop :=
  forallb (in_range "0" "9") s = true /\ @int_of latin1 s = n.

(** The ISO 8601 form YYYY-MM-DD of a date. *)
Definition iso_8601 (s : str) (d : Date) : Prop :=
  exists yyyy mm dd,
    s = yyyy ++ py "-" ++ mm ++ py "-" ++ dd
    /\ List.length yyyy = 4 /\ List.length mm = 2 /\ List.length dd = 2
    /\ reads yyyy (year d) /\ reads mm (month d) /\ reads dd (day d).

(** Equality of sets, and of values that are a set or [None]. *)
Definition set_equal {A} (a b : pyset A) : Prop := forall x, In x a <-> In x b.

Definition opt_set_equal {A} (a b : option (pyset A)) : Prop :=
  match a, b with
  | None, None => True
  | Some x, Some y => set_equal x y
  | _, _ => False
  end.

(** The classes that define [is_groupable]. *)
Definition defines_is_groupable (p : Parsed) : Prop :=
  kind_of p = k_MovedFrom \/ kind_of p = k_MovedTo.

(** [is_groupable] answers [True]. *)
Definition groupable (x y : ParsedLessonInfoMessage) : Prop :=
  is_groupable x y = Ok true.

(** Grouping as the specification states it: the same variant, the same [before] and
    [after] and, where the variant has them, the same course, resolved other
    info, date and entity kind. *)
Definition stated_groupable (x y : ParsedLessonInfoMessage) : Prop :=
  kind_of (variant x) = kind_of (variant y)
  /\ before x = before y /\ after x = after y
  /\ match variant x, variant y with
     | MovedFrom t _ _ d, MovedFrom t' _ _ d' => d = d' /\ t = t'
     | MovedTo ci d _, MovedTo ci' d' _ =>
         course ci = course ci'
         /\ opt_set_equal (other_info_value ci) (other_info_value ci')
         /\ d = d' /\ plan_type_of ci = plan_type_of ci'
     | InsteadOfCourse ci _, InsteadOfCourse ci' _
     | Cancelled ci _, Cancelled ci' _ =>
         course ci = course ci'
         /\ opt_set_equal (other_info_value ci) (other_info_value ci')
         /\ plan_type_of ci = plan_type_of ci'
     | _, _ => True
     end.

Definition every_variant_groupable : Prop :=
  forall x y : ParsedLessonInfoMessage, groupable x y <-> stated_groupable x y.

(** Two parses whose paragraphs and messages correspond one to one under a
    relation on messages. *)
Definition paragraphs_related (R : LessonInfoMessage -> LessonInfoMessage -> Prop)
           (a b : ParsedLessonInfo) : Prop :=
  Forall2 (fun p q => Forall2 R (messages p) (messages q)) (paragraphs a) (paragraphs b).

Definition same_original (m1 m2 : LessonInfoMessage) : Prop :=
  original_messages (parsed m1) = original_messages (parsed m2).

(** The integers from a to b. *)
Definition range_of (a b : Z) : pyset Z :=
  map (fun k => (a + Z.of_nat k)%Z) (seq 0 (Z.to_nat (b - a + 1))).

(** The texts of a rendering, [None] when it raised. *)
Definition texts_of (r : result (list LessonInfoTextSegment)) : option (list str) :=
  match r with
  | Ok segments => Some (map text segments)
  | Raise _ => None
  end.

(** ** What resolution does to a message *)

(** A message that has the attribute [_teachers] carries a set there. *)
Definition carries_teacher_set (p : Parsed) : Prop :=
  forall ci, get_course_info p = Ok ci -> _teachers ci <> None.

(** The directory fails with errors of the [LookupError] class only. *)
Definition fails_with_LookupError (dir : Teachers) (date : option Date) : Prop :=
  forall s e, query_plan_teacher dir s date = Raise e -> is_LookupError e = true.

(** Every reference of a set is found; the abbreviations found for a set. *)
Definition all_found (dir : Teachers) (date : option Date) (ts : pyset str) : Prop :=
  forall t, In t ts -> exists x, query_plan_teacher dir t date = Ok x.

Definition abbreviations_of (dir : Teachers) (date : option Date) (ts v : pyset str) : Prop :=
  forall a, In a v <->
            exists t x, In t ts /\ query_plan_teacher dir t date = Ok x /\ plan_short x = a.

(** A message with its course information replaced. *)
Definition with_course_info (p : Parsed) (ci : CourseInfo) : Parsed :=
  match p with
  | MovedTo _ d ps => MovedTo ci d ps
  | InsteadOfCourse _ ps => InsteadOfCourse ci ps
  | Cancelled _ ps => Cancelled ci ps
  | _ => p
  end.

Section Resolved.
Context {H : Helpers}.

(** The course information [ci'] is [ci] after resolution: only
    [other_info_value] changes; it holds the abbreviations when every
    reference is found, and is [None] otherwise, in which case a message of
    the forms plan renders its raw references without a link. *)
Definition resolved_course_info (dir : Teachers) (date : option Date)
           (ci ci' : CourseInfo) : Prop :=
  ci' = set_other_info_value ci (other_info_value ci')
  /\ forall ts, _teachers ci = Some ts ->
       (all_found dir date ts ->
        exists v, other_info_value ci' = Some v /\ abbreviations_of dir date ts v)
       /\ (~ all_found dir date ts ->
           other_info_value ci' = None
           /\ (plan_type_of ci = PT_forms ->
               forall d ps, _course_text_segments ci' d ps
                            = Ok [plain (course ci ++ py " "); plain (join (py ", ") ts)])).

Definition resolved_message (dir : Teachers) (date : option Date)
           (m m' : LessonInfoMessage) : Prop :=
  index m' = index m
  /\ before (parsed m') = before (parsed m)
  /\ after (parsed m') = after (parsed m)
  /\ original_messages (parsed m') = original_messages (parsed m)
  /\ match get_course_info (variant (parsed m)) with
     | Ok ci =>
         exists ci', variant (parsed m') = with_course_info (variant (parsed m)) ci'
                     /\ resolved_course_info dir date ci ci'
     | Raise _ => variant (parsed m') = variant (parsed m)
     end.

Definition resolved_paragraph (dir : Teachers) (date : option Date)
           (p p' : LessonInfoParagraph) : Prop :=
  paragraph_index p' = paragraph_index p
  /\ Forall2 (resolved_message dir date) (messages p) (messages p').
End Resolved.

(** ** What inference leaves *)

(** Exactly one distinct teacher abbreviation, [a], among the classes left. *)
Definition one_teacher (_class : classes_dict) (a : str) : Prop :=
  _class <> [] /\ forall kv, In kv _class -> Class.teacher (snd kv) = a.

(** The narrowing of [extract_teachers], class by class.  A class is a
    candidate for a course when its forms contain the lesson's and its code,
    the group where one is set and the subject otherwise, is the course; when
    no class is one by its code, the classes of that subject are. *)
Definition code_is (course : str) (c : Class.t) : Prop :=
  (exists g, Class.group c = Some g /\ g <> [] /\ course = g)
  \/ ((Class.group c = None \/ Class.group c = Some []) /\ course = Class.subject c).

Definition covers (lesson : Lesson) (c : Class.t) : Prop :=
  incl (forms lesson) (Class.forms c).

Definition candidate (lesson : Lesson) (classes : classes_dict) (course : str)
           (kv : str * Class.t) : Prop :=
  In kv classes /\ covers lesson (snd kv)
  /\ (code_is course (snd kv)
      \/ ((forall kv', In kv' classes -> ~ (code_is course (snd kv') /\ covers lesson (snd kv')))
          /\ course = Class.subject (snd kv))).

(** Several distinct teacher abbreviations among the classes of a kind. *)
Definition several (P : str * Class.t -> Prop) : Prop :=
  exists kv1 kv2, P kv1 /\ P kv2 /\ Class.teacher (snd kv1) <> Class.teacher (snd kv2).

(** While several teachers are left and the lesson's class number is set and
    names a candidate, only the class of that number stays. *)
Definition numbered (lesson : Lesson) (classes : classes_dict) (course : str)
           (kv : str * Class.t) : Prop :=
  candidate lesson classes course kv
  /\ (several (candidate lesson classes course) ->
      forall n, number (class_opt lesson) = Some n -> n <> [] ->
                (exists kv', candidate lesson classes course kv' /\ fst kv' = n) ->
                fst kv = n).

(** The first letter of the teacher abbreviation starts the name. *)
Definition starts_name (_name : str) (c : Class.t) : Prop :=
  exists a rest rest', Class.teacher c = a :: rest /\ _name = a :: rest'.

(** While several teachers are still left, only the classes whose teacher
    starts the name stay. *)
Definition survivor (lesson : Lesson) (classes : classes_dict) (course _name : str)
           (kv : str * Class.t) : Prop :=
  numbered lesson classes course kv
  /\ (several (numbered lesson classes course) -> starts_name _name (snd kv)).

(** Exactly one distinct teacher abbreviation, [a], among the classes of a
    kind. *)
Definition sole_teacher (P : str * Class.t -> Prop) (a : str) : Prop :=
  (exists kv, P kv) /\ forall kv, P kv -> Class.teacher (snd kv) = a.

(** The narrowing as the specification states it, with both steps taken
    whatever is left: the class number where it is set, then the first
    letter. *)
Definition survivor_as_stated (lesson : Lesson) (classes : classes_dict)
           (course _name : str) (kv : str * Class.t) : Prop :=
  candidate lesson classes course kv
  /\ (forall n, number (class_opt lesson) = Some n -> n <> [] -> fst kv = n)
  /\ starts_name _name (snd kv).

(** The record built for an abbreviation and a surname. *)
Definition inferred (lesson : Lesson) (a surname : str) : Teacher :=
  {| plan_short := a; plan_long := Some surname;
     last_seen := _lesson_date lesson; first_seen := _lesson_date lesson |}.

(** The record of one of the lesson's own teachers. *)
Definition listed (lesson : Lesson) (t : Teacher) : Prop :=
  exists l, teachers lesson = Some l /\ In (plan_short t) l
            /\ t = {| plan_short := plan_short t; plan_long := None;
                      last_seen := _lesson_date lesson;
                      first_seen := _lesson_date lesson |}.

(** What makes the loop of [extract_teachers] store the record [t] for a
    message: the attributes [other_info_value], [course] and [_teachers] are
    there, the first unresolved and the last a set; the surname, the first of
    the set, has a second token; the classes left by the narrowing have one
    teacher abbreviation, with a letter in it; and [t] pairs the abbreviation
    with the surname and the lesson date. *)
Definition stores_record {U : UnicodeData} (lesson : Lesson) (classes : classes_dict)
           (message : LessonInfoMessage) (t : Teacher) : Prop :=
  exists ci surname others _name,
    get_course_info (variant (parsed message)) = Ok ci
    /\ other_info_value ci = None
    /\ _teachers ci = Some (surname :: others)
    /\ 2 <= List.length (split_ws surname)
    /\ nth_error (split_ws surname) 1 = Some _name
    /\ sole_teacher (survivor lesson classes (course ci) _name) (plan_short t)
    /\ (exists c, In c (plan_short t) /\ isalpha c = true)
    /\ t = inferred lesson (plan_short t) surname.

(** The unresolved course messages of a lesson name a surname with a token in
    it, as those the grammar builds do. *)
Definition surnames_have_a_token (lesson : Lesson) : Prop :=
  forall m ci ts,
    In m (all_messages (parsed_info lesson)) ->
    get_course_info (variant (parsed m)) = Ok ci ->
    other_info_value ci = None ->
    _teachers ci = Some ts ->
    exists surname others, ts = surname :: others /\ split_ws surname <> [].

(** The inference as the specification states it: a record that is not one
    of the lesson's own teachers comes from a message for which, after both
    narrowing steps, exactly one teacher abbreviation is left. *)
Definition extract_teachers_as_stated {U : UnicodeData} : Prop :=
  forall (lesson : Lesson) (classes : classes_dict) (out : list Teacher) (t : Teacher),
    _is_scheduled lesson = false ->
    extract_teachers lesson classes = Ok out ->
    In t out ->
    listed lesson t
    \/ exists message ci surname others _name,
         In message (all_messages (parsed_info lesson))
         /\ get_course_info (variant (parsed message)) = Ok ci
         /\ other_info_value ci = None
         /\ _teachers ci = Some (surname :: others)
         /\ nth_error (split_ws surname) 1 = Some _name
         /\ sole_teacher (survivor_as_stated lesson classes (course ci) _name) (plan_short t)
         /\ (exists c, In c (plan_short t) /\ isalpha c = true).

(** ** Sample data

    The values the examples below run on: a lesson of form 10/1 on Wednesday,
    7 June 2023, messages of the kinds the grammar builds, a block
    configuration that labels periods "St.a-b", a directory that knows one
    teacher and a class list with one class. *)

Definition june (d : Z) : Date := {| year := 2023; month := 6; day := d |}.

Definition lesson_10_1 : Lesson :=
  {| forms := [py "10/1"]; periods := [7%Z]; teachers := None;
     _lesson_date := june 7; _is_scheduled := false;
     class_opt := {| number := None |};
     parsed_info := {| paragraphs := [] |} |}.

Definition message_of (p : Parsed) (orig : str) : ParsedLessonInfoMessage :=
  {| variant := p; before := []; after := []; original_messages := [orig] |}.

Definition numbered_blocks : BlockConfiguration :=
  {| get_label_of_periods :=
       fun ps => py "St." ++ join (py "-") (map str_of_Z (sorted_int ps)) |}.

Definition ci_MA : CourseInfo :=
  {| course := py "MA"; plan_type_of := PT_forms; plan_value := [py "10/1"];
     other_info_value := Some [py "MUS"]; _teachers := Some [py "Frau Musterfrau"] |}.

Definition moved_same_day : ParsedLessonInfoMessage :=
  message_of (MovedTo ci_MA None [3%Z]) (py "MA Frau Musterfrau verlegt nach St.3").

Definition moved_past : ParsedLessonInfoMessage :=
  message_of (MovedTo ci_MA (Some (june 5)) [1%Z; 2%Z])
             (py "MA Frau Musterfrau gehalten am Mo (05.06.) St.1-2").

Definition moved_future : ParsedLessonInfoMessage :=
  message_of (MovedTo ci_MA (Some (june 8)) [3%Z; 4%Z])
             (py "MA Frau Musterfrau verlegt nach Do (08.06.) St.3-4").

(** The same move read off another period of the block, with text in front. *)
Definition moved_period_4 : ParsedLessonInfoMessage :=
  {| variant := MovedTo ci_MA None [4%Z]; before := py "heute "; after := [];
     original_messages := [py "MA Frau Musterfrau verlegt nach St.4"] |}.

Definition exam_message : ParsedLessonInfoMessage :=
  message_of (Exam (py "Meier")) (py "Prüfung Meier").

Definition cancelled_by (short : option (pyset str)) : ParsedLessonInfoMessage :=
  message_of (Cancelled {| course := py "SPO"; plan_type_of := PT_forms;
                           plan_value := [py "10/1"];
                           other_info_value := short;
                           _teachers := Some [py "Herr Mustermann"] |} [7%Z])
             (py "SPO Herr Mustermann fällt aus").

Definition substituted_MA : ParsedLessonInfoMessage :=
  message_of (InsteadOfCourse {| course := py "MA"; plan_type_of := PT_forms;
                                 plan_value := [py "10/1"];
                                 other_info_value := None;
                                 _teachers := Some [py "Frau Musterfrau"] |} [7%Z])
             (py "für MA Frau Musterfrau").

Definition tasks_message : ParsedLessonInfoMessage :=
  message_of TasksInLernsax (py "Aufgaben stehen im LernSax").

Definition literal_message : ParsedLessonInfoMessage :=
  message_of FailedToParse (py "siehe Aushang").

(** One paragraph: a cancellation resolved to the given abbreviations, and a
    directive. *)
Definition info_resolved_as (short : option (pyset str)) : ParsedLessonInfo :=
  {| paragraphs :=
       [{| messages := [{| parsed := cancelled_by short; index := 0 |};
                        {| parsed := tasks_message; index := 1 |}];
           paragraph_index := 0 |}] |}.

(** One paragraph with two unresolved course messages. *)
Definition unresolved_info : ParsedLessonInfo :=
  {| paragraphs :=
       [{| messages := [{| parsed := cancelled_by None; index := 0 |};
                        {| parsed := substituted_MA; index := 1 |}];
           paragraph_index := 0 |}] |}.

Definition small_directory : Teachers :=
  {| query_plan_teacher :=
       fun s _ => if str_eqb s (py "Frau Musterfrau")
                  then Ok {| plan_short := py "MUS"; plan_long := Some (py "Frau Musterfrau");
                             last_seen := june 7; first_seen := june 1 |}
                  else Raise KeyError |}.

Definition unplanned_lesson : Lesson :=
  {| forms := [py "10/1"]; periods := [7%Z]; teachers := Some [py "XYZ"];
     _lesson_date := june 7; _is_scheduled := false;
     class_opt := {| number := None |};
     parsed_info := unresolved_info |}.

Definition one_class : classes_dict :=
  [(py "12", {| Class.teacher := py "MUS"; Class.subject := py "MA";
                Class.group := None; Class.forms := [py "10/1"; py "10/2"] |})].

(** Two classes of MA with different teachers. *)
Definition two_classes : classes_dict :=
  [(py "12", {| Class.teacher := py "MUS"; Class.subject := py "MA";
                Class.group := None; Class.forms := [py "10/1"; py "10/2"] |});
   (py "13", {| Class.teacher := py "XYZ"; Class.subject := py "MA";
                Class.group := None; Class.forms := [py "10/1"] |})].

(** A class list whose one class of MA is taught by XYZ. *)
Definition class_of_XYZ : classes_dict :=
  [(py "12", {| Class.teacher := py "XYZ"; Class.subject := py "MA";
                Class.group := None; Class.forms := [py "10/1"] |})].

(** A class list with a group: DE is the group of a class of subject D. *)
Definition class_with_group : classes_dict :=
  [(py "7", {| Class.teacher := py "xyz"; Class.subject := py "D";
               Class.group := Some (py "DE"); Class.forms := [py "10/1"] |})].

Definition cancelled_DE : ParsedLessonInfoMessage :=
  message_of (Cancelled {| course := py "DE"; plan_type_of := PT_forms;
                           plan_value := [py "10/1"];
                           other_info_value := None;
                           _teachers := Some [py "Herr Mann"] |} [7%Z])
             (py "DE Herr Mann fällt aus").

Definition room_link (room : str) (date : Date) : LessonInfoTextSegment :=
  {| text := room;
     link := Some {| Link.type := PT_rooms; Link.value := [room];
                     Link.date := Some date; Link.periods := None |} |}.

(** * Properties *)

Unset Implicit Arguments.

(** ** Equality tests *)

Lemma char_eqb_eq (a b : char) : char_eqb a b = true <-> a = b.
Proof. apply N.eqb_eq. Qed.

Lemma str_eqb_eq (a b : str) : str_eqb a b = true <-> a = b.
Proof.
  revert b; induction a as [|x a IH]; intros [|y b]; simpl; split;
    try congruence; try reflexivity.
  - intros E. apply andb_true_iff in E as [E1 E2].
    apply N.eqb_eq in E1. apply IH in E2. congruence.
  - intros E. injection E as -> ->. apply andb_true_iff. split.
    + apply N.eqb_refl.
    + apply IH. reflexivity.
Qed.

Lemma Date_eqb_eq (a b : Date) : Date_eqb a b = true <-> a = b.
Proof.
  unfold Date_eqb. rewrite !andb_true_iff, !Z.eqb_eq.
  destruct a, b; simpl. split.
  - intros [[-> ->] ->]. reflexivity.
  - intros E. injection E as -> -> ->. auto.
Qed.

Lemma opt_Date_eqb_eq (a b : option Date) : opt_Date_eqb a b = true <-> a = b.
Proof.
  destruct a as [a|], b as [b|]; simpl; try (split; congruence).
  rewrite Date_eqb_eq. split; congruence.
Qed.

Lemma plan_type_eqb_eq (a b : plan_type) : plan_type_eqb a b = true <-> a = b.
Proof. destruct a, b; simpl; split; congruence. Qed.

Lemma Date_ltb_lt (a b : Date) : Date_ltb a b = true <-> Date_lt a b.
Proof.
  unfold Date_ltb, Date_lt.
  rewrite orb_true_iff, andb_true_iff, orb_true_iff, andb_true_iff.
  rewrite !Z.ltb_lt, !Z.eqb_eq. reflexivity.
Qed.

Lemma Date_ltb_ge (a b : Date) : Date_ltb a b = false <-> Date_le b a.
Proof.
  rewrite <- not_true_iff_false, Date_ltb_lt. unfold Date_le, Date_lt.
  destruct a as [ya ma da], b as [yb mb db]; simpl. split.
  - intros Hn.
    destruct (Z.eq_dec ya yb) as [->|]; [|left; lia].
    destruct (Z.eq_dec ma mb) as [->|]; [|left; lia].
    destruct (Z.eq_dec da db) as [->|]; [right; reflexivity|left; lia].
  - intros [Hlt|Heq] Hn; [lia|]. injection Heq as -> -> ->. lia.
Qed.

(** ** Sets *)

Lemma mem_In (x : str) (s : pyset str) : mem str_eqb x s = true <-> In x s.
Proof.
  induction s as [|y s IH]; simpl.
  - split; [discriminate | tauto].
  - rewrite orb_true_iff, str_eqb_eq, IH. split; intros [E|E]; auto.
Qed.

Lemma issubset_incl (a b : pyset str) : issubset str_eqb a b = true <-> incl a b.
Proof.
  unfold issubset, incl. rewrite forallb_forall.
  split; intros Hs x Hx; apply mem_In; auto; apply mem_In; auto.
Qed.

Lemma set_eqb_equal (a b : pyset str) : set_eqb str_eqb a b = true <-> set_equal a b.
Proof.
  unfold set_eqb, set_equal. rewrite andb_true_iff, !issubset_incl. unfold incl.
  split.
  - intros [Hab Hba] x. split; auto.
  - intros Hx. split; intros x; apply Hx.
Qed.

Lemma opt_set_eqb_equal (a b : option (pyset str)) :
  opt_set_eqb str_eqb a b = true <-> opt_set_equal a b.
Proof.
  destruct a, b; simpl; try apply set_eqb_equal; split; try discriminate; tauto.
Qed.

Lemma opt_set_equal_refl (a : option (pyset str)) : opt_set_equal a a.
Proof. destruct a; simpl; [intros x; tauto | exact I]. Qed.

Lemma opt_set_equal_sym (a b : option (pyset str)) :
  opt_set_equal a b -> opt_set_equal b a.
Proof.
  destruct a, b; simpl; auto. intros Hx x. symmetry. apply Hx.
Qed.

Lemma opt_set_equal_trans (a b c : option (pyset str)) :
  opt_set_equal a b -> opt_set_equal b c -> opt_set_equal a c.
Proof.
  destruct a, b, c; simpl; try tauto.
  intros H1 H2 x. specialize (H1 x). specialize (H2 x). tauto.
Qed.

Lemma In_set_of_list (a : str) (l : list str) : In a (set_of_list str_eqb l) <-> In a l.
Proof.
  induction l as [|x l IH]; simpl; [tauto|].
  rewrite filter_In, IH, negb_true_iff. split.
  - intros [E|[Hin _]]; auto.
  - intros [E|Hin]; auto.
    destruct (str_eqb a x) eqn:Eax; [left; symmetry; apply str_eqb_eq; exact Eax | right; auto].
Qed.

Lemma filter_nil_iff {A} (f : A -> bool) (l : list A) :
  filter f l = [] <-> forall x, In x l -> f x = false.
Proof.
  induction l as [|y l IH]; simpl; [tauto|].
  destruct (f y) eqn:Ey.
  - split; [discriminate|]. intros Hx. rewrite (Hx y (or_introl eq_refl)) in Ey. discriminate.
  - rewrite IH. split.
    + intros Hx x [<-|Hin]; auto.
    + intros Hx x Hin. auto.
Qed.

(** ** The error monad *)

Lemma mapM_Ok {A B} (f : A -> result B) (l : list A) (ys : list B) :
  mapM f l = Ok ys -> Forall2 (fun x y => f x = Ok y) l ys.
Proof.
  revert ys; induction l as [|x l IH]; simpl; intros ys E.
  - injection E as <-. constructor.
  - destruct (f x) as [y|e] eqn:Ex; simpl in E; [|discriminate].
    destruct (mapM f l) as [ys'|e]; simpl in E; [|discriminate].
    injection E as <-. constructor; auto.
Qed.

Lemma mapM_Raise {A B} (f : A -> result B) (l : list A) (e : exn) :
  mapM f l = Raise e -> exists x, In x l /\ f x = Raise e.
Proof.
  induction l as [|x l IH]; simpl; intros E; [discriminate|].
  destruct (f x) as [y|e'] eqn:Ex; simpl in E.
  - destruct (mapM f l) as [ys'|e']; simpl in E; [discriminate|].
    injection E as ->. destruct (IH eq_refl) as (x' & Hin & Hx'). eauto.
  - injection E as ->. eauto.
Qed.

Lemma mapM_Forall2 {A B} (f : A -> result B) (P : A -> B -> Prop) (l : list A) :
  (forall x, In x l -> exists y, f x = Ok y /\ P x y) ->
  exists ys, mapM f l = Ok ys /\ Forall2 P l ys.
Proof.
  induction l as [|x l IH]; simpl; intros Hf.
  - exists []. split; [reflexivity | constructor].
  - destruct (Hf x (or_introl eq_refl)) as (y & Ey & Py).
    destruct IH as (ys & Eys & Pys); [intros; apply Hf; auto|].
    exists (y :: ys). rewrite Ey, Eys. split; [reflexivity | constructor; auto].
Qed.

(** ** [sorted] sorts, and keeps related lists related *)

Section SortedBy.
Variables (A : Type) (ltb : A -> A -> bool).
Hypothesis ltb_asym : forall a b, ltb a b = true -> ltb b a = false.

Let le (a b : A) : Prop := ltb b a = false.

Lemma insert_by_perm x l : Permutation (x :: l) (insert_by ltb (fun a => a) x l).
Proof.
  induction l as [|y l IH]; simpl; [reflexivity|].
  destruct (ltb y x); [|reflexivity].
  rewrite perm_swap. apply perm_skip. exact IH.
Qed.

Lemma sorted_by_perm l : Permutation l (sorted_by ltb (fun a => a) l).
Proof.
  induction l as [|x l IH]; simpl; [reflexivity|].
  rewrite <- insert_by_perm. apply perm_skip. exact IH.
Qed.

Lemma insert_by_sorted x l : Sorted le l -> Sorted le (insert_by ltb (fun a => a) x l).
Proof.
  induction l as [|y l IH]; simpl; intros Hs.
  - repeat constructor.
  - destruct (ltb y x) eqn:E.
    + inversion Hs as [|? ? Hl Hhd]; subst. constructor; [apply IH; exact Hl|].
      destruct l as [|z l]; simpl.
      * constructor. apply ltb_asym. exact E.
      * destruct (ltb z x); constructor.
        -- inversion Hhd; subst. assumption.
        -- apply ltb_asym. exact E.
    + constructor; [exact Hs|]. constructor. exact E.
Qed.

Lemma sorted_by_sorted l : Sorted le (sorted_by ltb (fun a => a) l).
Proof.
  induction l as [|x l IH]; simpl; [constructor | apply insert_by_sorted; exact IH].
Qed.
End SortedBy.

Lemma str_ltb_asym (a b : str) : str_ltb a b = true -> str_ltb b a = false.
Proof.
  unfold str_ltb. revert b; induction a as [|x a IH]; intros [|y b]; simpl; try congruence.
  unfold char_eqb. rewrite (N.eqb_sym y x).
  destruct (N.eqb x y) eqn:E; [apply IH|].
  rewrite N.ltb_lt, N.ltb_ge. lia.
Qed.

Lemma Z_ltb_asym (a b : Z) : Z.ltb a b = true -> Z.ltb b a = false.
Proof. rewrite Z.ltb_lt, Z.ltb_ge. lia. Qed.

Lemma sorted_str_sorted (s : pyset str) :
  Sorted (fun a b => str_ltb b a = false) (sorted_str s) /\ Permutation s (sorted_str s).
Proof.
  split; [apply sorted_by_sorted, str_ltb_asym | apply sorted_by_perm].
Qed.

Lemma sorted_int_sorted (s : pyset Z) :
  Sorted (fun a b => (a <= b)%Z) (sorted_int s) /\ Permutation s (sorted_int s).
Proof.
  split; [|apply sorted_by_perm].
  pose proof (sorted_by_sorted Z Z.ltb Z_ltb_asym s) as Hs.
  unfold sorted_int. induction Hs as [|a l Hl IH Hhd]; constructor; auto.
  destruct Hhd as [|b l' Hab]; constructor. apply Z.ltb_ge. exact Hab.
Qed.

Section SortedRelated.
Variables (A K : Type) (ltb : K -> K -> bool) (key : A -> K).
Variable R : A -> A -> Prop.
Hypothesis R_key : forall x y, R x y -> key x = key y.

Lemma insert_by_related x y l1 l2 :
  R x y -> Forall2 R l1 l2 ->
  Forall2 R (insert_by ltb key x l1) (insert_by ltb key y l2).
Proof.
  intros Hxy Hl. induction Hl as [|a b l1 l2 Hab Hl IH]; simpl.
  - constructor; auto.
  - rewrite (R_key _ _ Hxy), (R_key _ _ Hab).
    destruct (ltb (key b) (key y)); repeat constructor; auto.
Qed.

Lemma sorted_by_related l1 l2 :
  Forall2 R l1 l2 -> Forall2 R (sorted_by ltb key l1) (sorted_by ltb key l2).
Proof.
  intros Hl. induction Hl; simpl; [constructor | apply insert_by_related; auto].
Qed.
End SortedRelated.

Lemma Forall2_map_eq {A B} (f : A -> B) (R : A -> A -> Prop) l1 l2 :
  (forall x y, R x y -> f x = f y) -> Forall2 R l1 l2 -> map f l1 = map f l2.
Proof.
  intros Hf Hl. induction Hl; simpl; [reflexivity|]. f_equal; auto.
Qed.

Lemma Forall2_map {A B} (f : A -> B) (R : A -> A -> Prop) (S : B -> B -> Prop) l1 l2 :
  (forall x y, R x y -> S (f x) (f y)) -> Forall2 R l1 l2 -> Forall2 S (map f l1) (map f l2).
Proof.
  intros Hf Hl. induction Hl; simpl; constructor; auto.
Qed.

(** ** The grammar cascade (C1, C4) *)

Lemma re_match_start (r : regex) (text : str) (m : Match) :
  re_match r text = Some m -> m_start m = 0.
Proof.
  unfold re_match, match_at.
  destruct (run text r _ _); intros E; [injection E as <-; reflexivity | discriminate].
Qed.

Ltac anchored_rule :=
  intros _; eexists; split; [reflexivity|];
  cbn [variant before after original_messages fst snd kind_of rule_kind];
  repeat split; try reflexivity;
  match goal with E : re_match _ _ = Some _ |- _ => apply (re_match_start _ _ _ E) end.

Ltac searched_rule :=
  intros _; eexists; split; [reflexivity|];
  cbn [variant before after original_messages fst snd kind_of rule_kind];
  repeat split; reflexivity.

Ltac dated_rule :=
  let Hd := fresh "Hd" in
  let d := fresh "d" in
  let Ed := fresh "Ed" in
  intros Hd; destruct (Hd eq_refl) as (d & Ed); rewrite Ed; cbn [bind];
  eexists; split; [reflexivity|];
  cbn [variant before after original_messages fst snd kind_of rule_kind];
  repeat split; try reflexivity;
  match goal with E : re_match _ _ = Some _ |- _ => apply (re_match_start _ _ _ E) end.

(** C1 (amended).  For a message of the forms plan, take the text trimmed and
    with "/ " after a word character contracted to "/".  The variant is that
    of the first rule, in the order InsteadOfCourse, MovedFrom (same day),
    MovedFrom ("statt"), MovedTo ("gehalten am"), MovedTo (same day), MovedTo
    (dated), Cancelled, Exam, DoAtLocation, IndividualRevision, WholeForm,
    DoIndependently, TasksInLernsax, TasksWereGiven, that applies: the first
    seven are tried at the start of the text, the last seven are searched for
    anywhere in it.  The text in front of the match is kept as [before], the
    match as the one original message, the text behind it as [after]; a rule
    that captures a date gives its variant whenever day and month name a day
    of the lesson's year.  If no rule applies the result is [FailedToParse]
    with the whole text as its one original message, and so it is for every
    message of the teachers and rooms plans. *)
Theorem cascade_first_applicable_rule :
  forall (U : UnicodeData) (H : Helpers) (info : str) (lesson : Lesson),
    (match first_rule applies priority (normalized info) with
     | Some (r, m) =>
         (captures_date r = true -> exists d, date_of m lesson = Ok d) ->
         exists msg,
           _parse_message info lesson PT_forms = Ok msg
           /\ kind_of (variant msg) = rule_kind r
           /\ before msg = firstn (m_start m) (normalized info)
           /\ original_messages msg = [slice (normalized info) (m_start m) (m_end m)]
           /\ after msg = skipn (m_end m) (normalized info)
           /\ (if anchored r then m_start m = 0 else True)
     | None =>
         _parse_message info lesson PT_forms = Ok (failed_to_parse (normalized info))
     end)
    /\ _parse_message info lesson PT_teachers = Ok (failed_to_parse (normalized info))
    /\ _parse_message info lesson PT_rooms = Ok (failed_to_parse (normalized info)).
Proof.
  intros U H info lesson. split; [|split; reflexivity].
  unfold _parse_message. fold (normalized info).
  generalize (normalized info) as t. intros t.
  cbv [first_rule priority applies anchored pattern_of captures_date].
  unfold _parse_form_plan_message.
  destruct (re_match _InfoParsers.substitution t) as [m|] eqn:E1; [anchored_rule|].
  destruct (re_match _InfoParsers.moved_from t) as [m|] eqn:E2; [anchored_rule|].
  destruct (re_match _InfoParsers.instead_of t) as [m|] eqn:E3; [dated_rule|].
  destruct (re_match _InfoParsers.held_at t) as [m|] eqn:E4; [dated_rule|].
  destruct (re_match _InfoParsers.moved_to t) as [m|] eqn:E5; [anchored_rule|].
  destruct (re_match _InfoParsers.moved_to_date t) as [m|] eqn:E6; [dated_rule|].
  destruct (re_match _InfoParsers.cancelled t) as [m|] eqn:E7; [anchored_rule|].
  destruct (re_search _InfoParsers.exam t) as [m|] eqn:E8; [searched_rule|].
  destruct (re_search _InfoParsers.do_where t) as [m|] eqn:E9; [searched_rule|].
  destruct (re_search _InfoParsers.individual_revision t) as [m|] eqn:E10; [searched_rule|].
  destruct (re_search (_InfoParsers.whole_form _parse_form_pattern) t) as [m|] eqn:E11;
    [searched_rule|].
  destruct (re_search _InfoParsers.independent t) as [m|] eqn:E12; [searched_rule|].
  destruct (re_search _InfoParsers.tasks_in_lernsax t) as [m|] eqn:E13; [searched_rule|].
  destruct (re_search _InfoParsers.tasks_were_given t) as [m|] eqn:E14; [searched_rule|].
  reflexivity.
Qed.

(** The notice "DE Frau Musterfrau gehalten am Mo (05.06.) St.1-2" falls to the
    fourth rule, whose date is a day of 2023. *)
Lemma cascade_first_applicable_rule_witness :
  exists msg,
    @_parse_message latin1 spec_helpers
      (py " DE Frau Musterfrau gehalten am Mo (05.06.) St.1-2 ") lesson_10_1 PT_forms
    = Ok msg
    /\ kind_of (variant msg) = k_MovedTo
    /\ before msg = []
    /\ original_messages msg = [py "DE Frau Musterfrau gehalten am Mo (05.06.) St.1-2"]
    /\ after msg = [].
Proof.
  pose proof (cascade_first_applicable_rule latin1 spec_helpers
                (py " DE Frau Musterfrau gehalten am Mo (05.06.) St.1-2 ") lesson_10_1)
    as [Hm _].
  vm_compute in Hm.
  destruct Hm as (msg & E & Hk & Hb & Ho & Ha & _).
  - intros _. eexists. reflexivity.
  - exists msg. vm_compute. repeat split; assumption.
Defined.

Lemma do_where_found_inside_the_text :
  forall H : Helpers,
    first_rule (@at_start latin1 H) priority (py "Aufgaben bitte zu Hause bearbeiten") = None
    /\ @_parse_message latin1 H (py "Aufgaben bitte zu Hause bearbeiten") lesson_10_1 PT_forms
       = Ok {| variant := DoAtLocation (py "zu Hause");
               before := py "Aufgaben ";
               after := [];
               original_messages := [py "bitte zu Hause bearbeiten"] |}.
Proof. intros H. split; vm_compute; reflexivity. Qed.

(** C1, as stated, fails: no rule matches at the start of
    "Aufgaben bitte zu Hause bearbeiten", yet the result is not
    [FailedToParse] but [DoAtLocation], found behind "Aufgaben ". *)
Lemma search_rules_match_inside_the_text : ~ cascade_at_start.
Proof.
  intros Hc.
  specialize (Hc latin1 spec_helpers (py "Aufgaben bitte zu Hause bearbeiten") lesson_10_1).
  destruct (do_where_found_inside_the_text spec_helpers) as [E1 E2].
  replace (strip (py "Aufgaben bitte zu Hause bearbeiten"))
    with (py "Aufgaben bitte zu Hause bearbeiten") in Hc by (vm_compute; reflexivity).
  rewrite E1, E2 in Hc. discriminate Hc.
Qed.

(** The notices of the specification's examples, run through the grammar. *)
Example verlegt_von_St_7 :
  forall H : Helpers,
    @_parse_message latin1 H (py "verlegt von St.7") lesson_10_1 PT_forms
    = Ok (message_of (MovedFrom PT_forms [py "10/1"] [7%Z] None) (py "verlegt von St.7")).
Proof. intros H. vm_compute. reflexivity. Qed.

Example MA_verlegt_nach_St_3 :
  @_parse_message latin1 spec_helpers (py "MA Frau Musterfrau verlegt nach St.3")
                  lesson_10_1 PT_forms
  = Ok (message_of
          (MovedTo {| course := py "MA"; plan_type_of := PT_forms;
                      plan_value := [py "10/1"]; other_info_value := None;
                      _teachers := Some [py "Frau Musterfrau"] |} None [3%Z])
          (py "MA Frau Musterfrau verlegt nach St.3")).
Proof. vm_compute. reflexivity. Qed.

Example SPO_faellt_aus :
  forall H : Helpers,
    @_parse_message latin1 H (py "SPO Herr Mustermann fällt aus") lesson_10_1 PT_forms
    = Ok (cancelled_by None).
Proof. intros H. vm_compute. reflexivity. Qed.

Example selbst_v_Aufgaben :
  split_parens_aware (py "selbst. (v), Aufgaben stehen im LernSax") (chr ",") None
  = [py "selbst. (v)"; py " Aufgaben stehen im LernSax"].
Proof. vm_compute. reflexivity. Qed.

(** The "statt" rule hands the captured range to [parse_periods]. *)
Example statt_expands_range :
  @_parse_message latin1 spec_helpers (py "statt Mo (05.06.) St.1-2") lesson_10_1 PT_forms
  = Ok (message_of (MovedFrom PT_forms [py "10/1"] [1%Z; 2%Z] (Some (june 5)))
                   (py "statt Mo (05.06.) St.1-2")).
Proof. vm_compute. reflexivity. Qed.

(** C4 (the code at the failing input).  "verlegt von St.7-8" is parsed by the
    same-day [MovedFrom] rule, which reads the first period alone: the periods
    are {7}, not the range 7 to 8 the pattern captured. *)
Theorem moved_from_keeps_first_period :
  forall (H : Helpers) (lesson : Lesson),
    @_parse_message latin1 H (py "verlegt von St.7-8") lesson PT_forms
    = Ok {| variant := MovedFrom PT_forms (forms lesson) [7%Z] None;
            before := [];
            after := [];
            original_messages := [py "verlegt von St.7-8"] |}
    /\ [7%Z] <> range_of 7 8.
Proof.
  intros H lesson. split; [vm_compute; reflexivity|].
  intros E. vm_compute in E. discriminate E.
Qed.

(** ** The fuzzy linker (C2) *)

(** C2 (the code at the failing input).  The room pass over
    "bitte Raum 1302 nutzen" with the room 1302 emits the eleven characters in
    front of the room one by one and then the linked room; the cursor then
    moves from 11 by the end index 15 of the match, past the end of the text,
    and " nutzen" is lost: the texts of the segments make up
    "bitte Raum 1302" only. *)
Theorem room_pass_loses_text_after_link :
  forall date : Date,
    add_fuzzy_room_links (py "bitte Raum 1302 nutzen") [py "1302"] date
    = Some (map (fun c => plain [c]) (py "bitte Raum ") ++ [room_link (py "1302") date])
    /\ texts (map (fun c => plain [c]) (py "bitte Raum ") ++ [room_link (py "1302") date])
       = py "bitte Raum 1302"
    /\ py "bitte Raum 1302" <> py "bitte Raum 1302 nutzen".
Proof.
  intros date. split; [|split].
  - vm_compute. reflexivity.
  - vm_compute. reflexivity.
  - vm_compute. discriminate.
Qed.

(** ** The segmenter (C3) *)

Lemma skipn_cons_nth {A} (l : list A) (i : nat) {x : A} :
  nth_error l i = Some x -> skipn i l = x :: skipn (S i) l.
Proof.
  revert i; induction l as [|y l IH]; intros [|i] E; simpl in *; try discriminate.
  - congruence.
  - rewrite (IH i E). reflexivity.
Qed.

Lemma skipn_nth_head {A} (l rest : list A) (i : nat) (x : A) :
  skipn i l = x :: rest -> nth_error l i = Some x /\ skipn (S i) l = rest.
Proof.
  revert i; induction l as [|y l IH]; intros [|i] E; simpl in *; try discriminate.
  - injection E as -> ->. split; reflexivity.
  - apply IH in E. exact E.
Qed.

Lemma split_points_weaken string sep a b l :
  a <= b -> split_points string sep b l -> split_points string sep a l.
Proof.
  intros Hab Hl. destruct Hl; constructor; auto. lia.
Qed.

Lemma sep_indexes_from_points parens sep string :
  forall suffix st i, skipn i string = suffix ->
    split_points string sep i (sep_indexes_from parens sep st i suffix).
Proof.
  induction suffix as [|c rest IH]; intros st i E; simpl.
  - constructor.
  - apply skipn_nth_head in E as [Hc Hrest].
    destruct (parens_get c parens).
    + apply split_points_weaken with (S i); auto.
    + destruct (negb (is_empty st) && is_top c st).
      * apply split_points_weaken with (S i); auto.
      * destruct (char_eqb c sep && is_empty st) eqn:Hs.
        -- apply andb_true_iff in Hs as [Hs _]. apply char_eqb_eq in Hs. subst c.
           constructor; auto.
        -- apply split_points_weaken with (S i); auto.
Qed.

Lemma pieces_nonempty string start idxs : pieces string start idxs <> [].
Proof. destruct idxs; simpl; discriminate. Qed.

Lemma join_cons sep p rest :
  rest <> [] -> join sep (p :: rest) = p ++ sep ++ join sep rest.
Proof. destruct rest; [congruence | reflexivity]. Qed.

Lemma pieces_join string sep :
  forall idxs start, split_points string sep start idxs ->
    join [sep] (pieces string start idxs) = skipn start string.
Proof.
  induction idxs as [|i rest IH]; intros start Hp.
  - reflexivity.
  - cbn [pieces]. inversion Hp as [|? ? ? Hle Hnth Hrest]; subst.
    rewrite join_cons by apply pieces_nonempty.
    replace (i + 1) with (S i) by lia.
    rewrite (IH _ Hrest). unfold slice.
    rewrite <- (firstn_skipn (i - start) (skipn start string)) at 2.
    f_equal. rewrite skipn_skipn. replace (i - start + start) with i by lia.
    rewrite (skipn_cons_nth _ _ Hnth). reflexivity.
Qed.

Lemma split_parens_aware_join string sep parens :
  join [sep] (split_parens_aware string sep parens) = string.
Proof.
  unfold split_parens_aware, sep_indexes.
  rewrite pieces_join with (sep := sep).
  - reflexivity.
  - apply sep_indexes_from_points. reflexivity.
Qed.

Lemma sep_indexes_from_iff parens sep :
  parens_get sep parens = None ->
  forall string st i j,
    In j (sep_indexes_from parens sep st i string)
    <-> i <= j /\ nth_error string (j - i) = Some sep
        /\ stack_after parens st (firstn (j - i) string) = [].
Proof.
  intros Hsep. induction string as [|c rest IH]; intros st i j.
  - simpl. split; [tauto|]. intros (_ & E & _). destruct (j - i); discriminate.
  - assert (Hstep : forall st',
      (In j (sep_indexes_from parens sep st' (S i) rest)
       <-> i < j /\ nth_error (c :: rest) (j - i) = Some sep
           /\ stack_after parens st' (firstn (j - S i) rest) = [])).
    { intros st'. rewrite IH. split.
      - intros (Hle & Hn & Hs). replace (j - i) with (S (j - S i)) by lia.
        simpl. repeat split; auto.
      - intros (Hle & Hn & Hs). replace (j - i) with (S (j - S i)) in Hn by lia.
        simpl in Hn. repeat split; auto. }
    assert (Hcut : i < j -> firstn (j - i) (c :: rest) = c :: firstn (j - S i) rest).
    { intros Hlt. replace (j - i) with (S (j - S i)) by lia. reflexivity. }
    simpl sep_indexes_from.
    destruct (parens_get c parens) as [closing|] eqn:Hc.
    + rewrite Hstep. split.
      * intros (Hlt & Hn & Hs). rewrite (Hcut Hlt). simpl. rewrite Hc.
        repeat split; auto. lia.
      * intros (Hle & Hn & Hs).
        assert (Hlt : i < j).
        { destruct (Nat.eq_dec i j) as [->|]; [|lia].
          rewrite Nat.sub_diag in Hn. simpl in Hn. congruence. }
        rewrite (Hcut Hlt) in Hs. simpl in Hs. rewrite Hc in Hs. auto.
    + destruct (negb (is_empty st) && is_top c st) eqn:Hpop.
      * rewrite Hstep. split.
        -- intros (Hlt & Hn & Hs). rewrite (Hcut Hlt). simpl. rewrite Hc, Hpop.
           repeat split; auto. lia.
        -- intros (Hle & Hn & Hs).
           assert (Hlt : i < j).
           { destruct (Nat.eq_dec i j) as [->|]; [|lia].
             rewrite Nat.sub_diag in Hs. simpl in Hs. subst st. discriminate. }
           rewrite (Hcut Hlt) in Hs. simpl in Hs. rewrite Hc, Hpop in Hs. auto.
      * destruct (char_eqb c sep && is_empty st) eqn:Hrec.
        -- apply andb_true_iff in Hrec as [Hcs Hst]. apply char_eqb_eq in Hcs.
           destruct st; [|discriminate]. subst c.
           simpl In. rewrite Hstep. split.
           ++ intros [<-|(Hlt & Hn & Hs)].
              ** rewrite Nat.sub_diag. simpl. auto.
              ** rewrite (Hcut Hlt). simpl. rewrite Hc. simpl.
                 repeat split; auto. lia.
           ++ intros (Hle & Hn & Hs).
              destruct (Nat.eq_dec i j) as [->|]; [left; reflexivity|right].
              assert (Hlt : i < j) by lia.
              rewrite (Hcut Hlt) in Hs. simpl in Hs. rewrite Hc in Hs. simpl in Hs.
              auto.
        -- rewrite Hstep. split.
           ++ intros (Hlt & Hn & Hs). rewrite (Hcut Hlt). simpl. rewrite Hc, Hpop.
              repeat split; auto. lia.
           ++ intros (Hle & Hn & Hs).
              assert (Hlt : i < j).
              { destruct (Nat.eq_dec i j) as [->|]; [|lia].
                rewrite Nat.sub_diag in Hn, Hs. simpl in Hn, Hs.
                injection Hn as ->. subst st.
                rewrite (proj2 (char_eqb_eq sep sep) eq_refl) in Hrec. discriminate. }
              rewrite (Hcut Hlt) in Hs. simpl in Hs. rewrite Hc, Hpop in Hs. auto.
Qed.

(** C3 (amended).  For every string, separator and bracket-pair mapping, the
    pieces [split_parens_aware] returns, joined with the separator, give the
    string back; the function is total, so brackets out of balance raise
    nothing.  When the separator is not itself an opening bracket of the
    mapping, an occurrence of the separator is a split point if and only if
    the bracket stack is empty there.  "Text (a, b) weiter" split at "," is a
    single piece. *)
Theorem split_parens_aware_lossless :
  forall (string : str) (sep : char) (parens : option parens_map),
    join [sep] (split_parens_aware string sep parens) = string
    /\ (parens_get sep (parens_or_default parens) = None ->
        forall i, In i (sep_indexes string sep parens)
                  <-> nth_error string i = Some sep /\ stack_at parens string i = [])
    /\ split_parens_aware (py "Text (a, b) weiter") (chr ",") None
       = [py "Text (a, b) weiter"].
Proof.
  intros string sep parens. split; [apply split_parens_aware_join|]. split.
  - intros Hsep i. unfold sep_indexes, stack_at.
    rewrite (sep_indexes_from_iff _ _ Hsep). rewrite Nat.sub_0_r.
    split; [tauto|]. intros [? ?]. repeat split; auto. lia.
  - reflexivity.
Qed.

(** In "selbst. (a, b) c, Aufgaben" the comma at index 16 is a split point,
    the one at index 10, inside the brackets, is not. *)
Lemma split_parens_aware_lossless_witness :
  parens_get (chr ",") (parens_or_default None) = None
  /\ (In 16 (sep_indexes (py "selbst. (a, b) c, Aufgaben") (chr ",") None)
      <-> nth_error (py "selbst. (a, b) c, Aufgaben") 16 = Some (chr ",")
          /\ stack_at None (py "selbst. (a, b) c, Aufgaben") 16 = [])
  /\ sep_indexes (py "selbst. (a, b) c, Aufgaben") (chr ",") None = [16]
  /\ nth_error (py "selbst. (a, b) c, Aufgaben") 16 = Some (chr ",")
  /\ stack_at None (py "selbst. (a, b) c, Aufgaben") 16 = []
  /\ nth_error (py "selbst. (a, b) c, Aufgaben") 10 = Some (chr ",")
  /\ stack_at None (py "selbst. (a, b) c, Aufgaben") 10 = [py ")"].
Proof.
  split; [reflexivity|]. split.
  - apply (proj1 (proj2 (split_parens_aware_lossless
                           (py "selbst. (a, b) c, Aufgaben") (chr ",") None))).
    reflexivity.
  - repeat split; vm_compute; reflexivity.
Defined.

(** C3, as stated, fails: with "(" as the separator and the default brackets,
    the "(" of "a(b" stands where the stack is empty and is no split point. *)
Lemma opening_bracket_separator_not_split : ~ splits_where_stack_empty.
Proof.
  intros Hc.
  destruct (Hc (py "a(b") (chr "(") None) as [_ Hiff].
  specialize (Hiff 1). destruct Hiff as [_ Hin].
  assert (In 1 (sep_indexes (py "a(b") (chr "(") None)) as Hbad.
  { apply Hin. split; reflexivity. }
  vm_compute in Hbad. exact Hbad.
Qed.
(** ** Rendering of [MovedTo] (C5) *)

Lemma course_text_segments_spec (H : Helpers) (ci : CourseInfo) (date' : option Date)
      (periods' : option (list Z)) (cs : list LessonInfoTextSegment) :
  _course_text_segments ci date' periods' = Ok cs
  <-> exists t l,
        cs = [{| text := course ci ++ py " "; link := None |}; {| text := t; link := l |}]
        /\ (plan_type_of ci = PT_forms ->
            exists written,
              original_other_info_value ci = Some written /\ t = join (py ", ") written)
        /\ (plan_type_of ci <> PT_forms -> forms_to_str (other_info_value ci) = Ok t)
        /\ (forall v, other_info_value ci = Some v -> v <> [] ->
              l = Some {| Link.type := match plan_type_of ci with
                                       | PT_forms => PT_teachers
                                       | _ => PT_forms
                                       end;
                          Link.value := sorted_str v;
                          Link.date := date'; Link.periods := periods' |})
        /\ (other_info_value ci = None \/ other_info_value ci = Some [] -> l = None).
Proof.
  unfold _course_text_segments, other_info_type, get_other_info_type_of_plan_type, plain.
  split.
  - intros E.
    assert (Hl : forall l : option Link.t,
               l = match other_info_value ci with
                   | Some v =>
                       if is_empty v then None
                       else Some {| Link.type := match plan_type_of ci with
                                                 | PT_forms => PT_teachers
                                                 | _ => PT_forms
                                                 end;
                                    Link.value := sorted_str v;
                                    Link.date := date'; Link.periods := periods' |}
                   | None => None
                   end ->
               (forall v, other_info_value ci = Some v -> v <> [] ->
                          l = Some {| Link.type := match plan_type_of ci with
                                                   | PT_forms => PT_teachers
                                                   | _ => PT_forms
                                                   end;
                                      Link.value := sorted_str v;
                                      Link.date := date'; Link.periods := periods' |})
               /\ (other_info_value ci = None \/ other_info_value ci = Some [] -> l = None)).
    { intros l ->. split.
      - intros v -> Hne. destruct v; [congruence | reflexivity].
      - intros [->| ->]; reflexivity. }
    destruct (plan_type_of ci) eqn:Hpt.
    + destruct (original_other_info_value ci) as [written|] eqn:Hw; [|discriminate].
      simpl in E. injection E as <-. eexists. eexists. split; [reflexivity|].
      split; [intros _; exists written; auto|]. split; [congruence|].
      apply Hl. reflexivity.
    + destruct (forms_to_str (other_info_value ci)) as [t|e] eqn:Hf; [|discriminate].
      simpl in E. injection E as <-. eexists. eexists. split; [reflexivity|].
      split; [discriminate|]. split; [reflexivity|]. apply Hl. reflexivity.
    + destruct (forms_to_str (other_info_value ci)) as [t|e] eqn:Hf; [|discriminate].
      simpl in E. injection E as <-. eexists. eexists. split; [reflexivity|].
      split; [discriminate|]. split; [reflexivity|]. apply Hl. reflexivity.
  - intros (t & l & -> & Hforms & Hother & Hsome & Hnone).
    assert (El : match other_info_value ci with
                 | Some v =>
                     if is_empty v then None
                     else Some {| Link.type := match plan_type_of ci with
                                               | PT_forms => PT_teachers
                                               | _ => PT_forms
                                               end;
                                  Link.value := sorted_str v;
                                  Link.date := date'; Link.periods := periods' |}
                 | None => None
                 end = l).
    { destruct (other_info_value ci) as [[|x v]|]; cbn [is_empty].
      - symmetry. apply Hnone. auto.
      - symmetry. apply Hsome; [reflexivity | discriminate].
      - symmetry. apply Hnone. auto. }
    destruct (plan_type_of ci) eqn:Hpt.
    + destruct (Hforms eq_refl) as (written & -> & ->). simpl. rewrite El. reflexivity.
    + rewrite Hother by discriminate. simpl. rewrite El. reflexivity.
    + rewrite Hother by discriminate. simpl. rewrite El. reflexivity.
Qed.

(** C5.  A [MovedTo] message rendered against a lesson date gives the course
    segments followed by an unlinked connective and a linked target.  Without
    a date the connective is " verlegt nach ", the target is the period label
    and its link carries the lesson date; with a date before the lesson date
    the connective is " gehalten am ", with a date on or after it
    " verlegt nach ", and in both the target reads weekday, date and period
    label and its link carries the date of the message.  The course segments
    are two: the course with a blank, without link, and the other info.  On
    the forms plan the text of the second is the ", "-join of the other info
    as written, on the other plans what [forms_to_str] makes of the resolved
    value; its link, there if the other info is resolved to a set that is not
    empty, carries the sorted set, under the other-info type, with the date
    and the periods handed in. *)
Theorem MovedTo_rendering_by_date :
  forall (H : Helpers) (self : ParsedLessonInfoMessage) (ci : CourseInfo)
         (date : option Date) (ps : pyset Z) (lesson_date : Date)
         (block_config : BlockConfiguration),
    variant self = MovedTo ci date ps ->
    let link_to d :=
      Some {| Link.type := plan_type_of ci; Link.value := sorted_str (plan_value ci);
              Link.date := Some d; Link.periods := Some (sorted_int ps) |} in
    (date = None ->
     _to_text_segments self lesson_date block_config
     = (cs <- _course_text_segments ci (Some lesson_date) None ;;
        Ok (cs ++ [{| text := py " verlegt nach "; link := None |};
                   {| text := get_label_of_periods block_config ps;
                      link := link_to lesson_date |}])))
    /\ (forall d, date = Some d -> Date_lt d lesson_date ->
        _to_text_segments self lesson_date block_config
        = (cs <- _course_text_segments ci (Some d) (Some (sorted_int ps)) ;;
           Ok (cs ++ [{| text := py " gehalten am "; link := None |};
                      {| text := de_weekday_to_str (weekday d) ++ py " ("
                                   ++ strftime_dmY d ++ py ") "
                                   ++ get_label_of_periods block_config ps;
                         link := link_to d |}])))
    /\ (forall d, date = Some d -> Date_le lesson_date d ->
        _to_text_segments self lesson_date block_config
        = (cs <- _course_text_segments ci (Some d) (Some (sorted_int ps)) ;;
           Ok (cs ++ [{| text := py " verlegt nach "; link := None |};
                      {| text := de_weekday_to_str (weekday d) ++ py " ("
                                   ++ strftime_dmY d ++ py ") "
                                   ++ get_label_of_periods block_config ps;
                         link := link_to d |}])))
    /\ (forall date' periods' cs,
          _course_text_segments ci date' periods' = Ok cs
          <-> exists t l,
                cs = [{| text := course ci ++ py " "; link := None |};
                      {| text := t; link := l |}]
                /\ (plan_type_of ci = PT_forms ->
                    exists written,
                      original_other_info_value ci = Some written
                      /\ t = join (py ", ") written)
                /\ (plan_type_of ci <> PT_forms ->
                    forms_to_str (other_info_value ci) = Ok t)
                /\ (forall v, other_info_value ci = Some v -> v <> [] ->
                      l = Some {| Link.type := match plan_type_of ci with
                                               | PT_forms => PT_teachers
                                               | _ => PT_forms
                                               end;
                                  Link.value := sorted_str v;
                                  Link.date := date'; Link.periods := periods' |})
                /\ (other_info_value ci = None \/ other_info_value ci = Some [] ->
                    l = None)).
Proof.
  intros H self ci date ps lesson_date block_config Hv link_to.
  unfold _to_text_segments. rewrite Hv. unfold MovedTo_to_text_segments.
  split; [|split; [|split]].
  - intros ->. reflexivity.
  - intros d -> Hlt. apply Date_ltb_lt in Hlt. rewrite Hlt. reflexivity.
  - intros d -> Hle. apply Date_ltb_ge in Hle. rewrite Hle. reflexivity.
  - intros date' periods' cs. apply course_text_segments_spec.
Qed.

(** On 7 June 2023: a move within the day, one from 5 June and one to 8 June,
    each with its four segments and their links. *)
Lemma MovedTo_rendering_by_date_witness :
  @_to_text_segments spec_helpers moved_same_day (june 7) numbered_blocks
  = Ok [{| text := py "MA "; link := None |};
        {| text := py "Frau Musterfrau";
           link := Some {| Link.type := PT_teachers; Link.value := [py "MUS"];
                           Link.date := Some (june 7); Link.periods := None |} |};
        {| text := py " verlegt nach "; link := None |};
        {| text := py "St.3";
           link := Some {| Link.type := PT_forms; Link.value := [py "10/1"];
                           Link.date := Some (june 7); Link.periods := Some [3%Z] |} |}]
  /\ @_to_text_segments spec_helpers moved_past (june 7) numbered_blocks
     = Ok [{| text := py "MA "; link := None |};
           {| text := py "Frau Musterfrau";
              link := Some {| Link.type := PT_teachers; Link.value := [py "MUS"];
                              Link.date := Some (june 5);
                              Link.periods := Some [1%Z; 2%Z] |} |};
           {| text := py " gehalten am "; link := None |};
           {| text := py "Mo (05.06.2023) St.1-2";
              link := Some {| Link.type := PT_forms; Link.value := [py "10/1"];
                              Link.date := Some (june 5);
                              Link.periods := Some [1%Z; 2%Z] |} |}]
  /\ @_to_text_segments spec_helpers moved_future (june 7) numbered_blocks
     = Ok [{| text := py "MA "; link := None |};
           {| text := py "Frau Musterfrau";
              link := Some {| Link.type := PT_teachers; Link.value := [py "MUS"];
                              Link.date := Some (june 8);
                              Link.periods := Some [3%Z; 4%Z] |} |};
           {| text := py " verlegt nach "; link := None |};
           {| text := py "Do (08.06.2023) St.3-4";
              link := Some {| Link.type := PT_forms; Link.value := [py "10/1"];
                              Link.date := Some (june 8);
                              Link.periods := Some [3%Z; 4%Z] |} |}]
  /\ @_course_text_segments spec_helpers ci_MA (Some (june 5)) (Some [1%Z; 2%Z])
     = Ok [{| text := py "MA "; link := None |};
           {| text := py "Frau Musterfrau";
              link := Some {| Link.type := PT_teachers; Link.value := [py "MUS"];
                              Link.date := Some (june 5);
                              Link.periods := Some [1%Z; 2%Z] |} |}].
Proof.
  split; [|split; [|split]].
  - rewrite (proj1 (MovedTo_rendering_by_date spec_helpers moved_same_day ci_MA None [3%Z]
                      (june 7) numbered_blocks eq_refl) eq_refl).
    vm_compute. reflexivity.
  - rewrite (proj1 (proj2 (MovedTo_rendering_by_date spec_helpers moved_past ci_MA
                             (Some (june 5)) [1%Z; 2%Z] (june 7) numbered_blocks eq_refl))
                   (june 5) eq_refl).
    + vm_compute. reflexivity.
    + unfold Date_lt; simpl; lia.
  - rewrite (proj1 (proj2 (proj2 (MovedTo_rendering_by_date spec_helpers moved_future ci_MA
                             (Some (june 8)) [3%Z; 4%Z] (june 7) numbered_blocks eq_refl)))
                   (june 8) eq_refl).
    + vm_compute. reflexivity.
    + left. unfold Date_lt; simpl; lia.
  - apply (proj2 (proj2 (proj2 (MovedTo_rendering_by_date spec_helpers moved_past ci_MA
                             (Some (june 5)) [1%Z; 2%Z] (june 7) numbered_blocks eq_refl)))
                 (Some (june 5)) (Some [1%Z; 2%Z])).
    eexists. eexists. split; [vm_compute; reflexivity|].
    split; [intros _; exists [py "Frau Musterfrau"]; split; vm_compute; reflexivity|].
    split; [intros Hpt; exfalso; apply Hpt; reflexivity|].
    split; [intros v E _; injection E as <-; vm_compute; reflexivity|].
    intros [E|E]; discriminate E.
Defined.

(** ** Grouping (C6) *)

Lemma and_then_true (a : bool) (b : result bool) :
  and_then a b = Ok true <-> a = true /\ b = Ok true.
Proof. destruct a; simpl; split; try tauto; try congruence. intros [? ?]; congruence. Qed.

Lemma Ok_true_iff (b : bool) : Ok b = Ok true <-> b = true.
Proof. split; congruence. Qed.

Lemma MovedFrom_groupable (x y : ParsedLessonInfoMessage) t v ps d t' v' ps' d' :
  variant x = MovedFrom t v ps d -> variant y = MovedFrom t' v' ps' d' ->
  (groupable x y <-> before x = before y /\ after x = after y /\ d = d' /\ t = t').
Proof.
  intros Hx Hy. unfold groupable, is_groupable. rewrite Hx, Hy. simpl.
  rewrite !and_then_true, Ok_true_iff, !str_eqb_eq, opt_Date_eqb_eq, plan_type_eqb_eq.
  tauto.
Qed.

Lemma MovedTo_groupable (x y : ParsedLessonInfoMessage) ci d ps ci' d' ps' :
  variant x = MovedTo ci d ps -> variant y = MovedTo ci' d' ps' ->
  (groupable x y <->
   course ci = course ci'
   /\ opt_set_equal (original_other_info_value ci) (original_other_info_value ci')
   /\ d = d' /\ plan_type_of ci = plan_type_of ci').
Proof.
  intros Hx Hy. unfold groupable, is_groupable. rewrite Hx, Hy. simpl.
  rewrite !and_then_true, Ok_true_iff, !str_eqb_eq, opt_Date_eqb_eq, plan_type_eqb_eq,
    opt_set_eqb_equal.
  tauto.
Qed.

(** C6 (amended).  [MovedFrom] and [MovedTo] define [is_groupable]; on a
    message of any other class the call raises [AttributeError].  Two
    [MovedFrom] messages are groupable if and only if they agree on [before],
    [after], date and plan type.  Two [MovedTo] messages are groupable if and
    only if they agree on course, on the other info as written (the raw
    teacher set when there is one, the resolved value otherwise), on date and
    on plan type.  On the messages of either class the relation is reflexive,
    symmetric and transitive. *)
Theorem is_groupable_of_moved_messages :
  forall x y z : ParsedLessonInfoMessage,
    (forall t v ps d t' v' ps' d',
        variant x = MovedFrom t v ps d -> variant y = MovedFrom t' v' ps' d' ->
        (groupable x y <-> before x = before y /\ after x = after y /\ d = d' /\ t = t'))
    /\ (forall ci d ps ci' d' ps',
           variant x = MovedTo ci d ps -> variant y = MovedTo ci' d' ps' ->
           (groupable x y <->
            course ci = course ci'
            /\ opt_set_equal (original_other_info_value ci) (original_other_info_value ci')
            /\ d = d' /\ plan_type_of ci = plan_type_of ci'))
    /\ (~ defines_is_groupable (variant x) -> is_groupable x y = Raise AttributeError)
    /\ (defines_is_groupable (variant x) ->
        groupable x x
        /\ (kind_of (variant y) = kind_of (variant x) -> groupable x y -> groupable y x)
        /\ (kind_of (variant y) = kind_of (variant x) ->
            kind_of (variant z) = kind_of (variant x) ->
            groupable x y -> groupable y z -> groupable x z)).
Proof.
  intros x y z. split; [|split; [|split]].
  - intros. eapply MovedFrom_groupable; eauto.
  - intros. eapply MovedTo_groupable; eauto.
  - intros Hn. unfold is_groupable, defines_is_groupable in *.
    destruct (variant x); simpl in *; try reflexivity; exfalso; apply Hn; auto.
  - intros Hd. unfold defines_is_groupable in Hd.
    destruct (variant x) as [t v ps d|ci d ps| | | | | | | | | |] eqn:Hx;
      simpl in Hd; try (destruct Hd; discriminate).
    + split; [|split].
      * apply (MovedFrom_groupable x x _ _ _ _ _ _ _ _ Hx Hx). auto.
      * intros Hk. destruct (variant y) as [t' v' ps' d'| | | | | | | | | | |] eqn:Hy;
          try discriminate Hk.
        rewrite (MovedFrom_groupable x y _ _ _ _ _ _ _ _ Hx Hy),
          (MovedFrom_groupable y x _ _ _ _ _ _ _ _ Hy Hx).
        intros (-> & -> & -> & ->). auto.
      * intros Hk Hk'.
        destruct (variant y) as [t' v' ps' d'| | | | | | | | | | |] eqn:Hy;
          try discriminate Hk.
        destruct (variant z) as [t2 v2 ps2 d2| | | | | | | | | | |] eqn:Hz;
          try discriminate Hk'.
        rewrite (MovedFrom_groupable x y _ _ _ _ _ _ _ _ Hx Hy),
          (MovedFrom_groupable y z _ _ _ _ _ _ _ _ Hy Hz),
          (MovedFrom_groupable x z _ _ _ _ _ _ _ _ Hx Hz).
        intros (-> & -> & -> & ->) (-> & -> & -> & ->). auto.
    + split; [|split].
      * apply (MovedTo_groupable x x _ _ _ _ _ _ Hx Hx).
        repeat split; auto using opt_set_equal_refl.
      * intros Hk. destruct (variant y) as [|ci' d' ps'| | | | | | | | | |] eqn:Hy;
          try discriminate Hk.
        rewrite (MovedTo_groupable x y _ _ _ _ _ _ Hx Hy),
          (MovedTo_groupable y x _ _ _ _ _ _ Hy Hx).
        intros (-> & Hs & -> & ->). auto using opt_set_equal_sym.
      * intros Hk Hk'.
        destruct (variant y) as [|ci' d' ps'| | | | | | | | | |] eqn:Hy;
          try discriminate Hk.
        destruct (variant z) as [|ci2 d2 ps2| | | | | | | | | |] eqn:Hz;
          try discriminate Hk'.
        rewrite (MovedTo_groupable x y _ _ _ _ _ _ Hx Hy),
          (MovedTo_groupable y z _ _ _ _ _ _ Hy Hz),
          (MovedTo_groupable x z _ _ _ _ _ _ Hx Hz).
        intros (-> & Hs & -> & ->) (-> & Hs' & -> & ->).
        repeat split; auto. eapply opt_set_equal_trans; eauto.
Qed.

(** The move of course MA read off period 3 and off period 4 of one block. *)
Lemma is_groupable_of_moved_messages_witness :
  defines_is_groupable (variant moved_same_day)
  /\ groupable moved_same_day moved_period_4
  /\ groupable moved_period_4 moved_same_day.
Proof.
  destruct (is_groupable_of_moved_messages moved_same_day moved_period_4 moved_same_day)
    as (_ & HTo & _ & Heq).
  assert (Hd : defines_is_groupable (variant moved_same_day)) by (right; reflexivity).
  assert (Hxy : groupable moved_same_day moved_period_4).
  { apply (HTo ci_MA None [3%Z] ci_MA None [4%Z] eq_refl eq_refl).
    repeat split; try reflexivity; intros Hin; exact Hin. }
  destruct (Heq Hd) as (_ & Hsym & _).
  split; [exact Hd|]. split; [exact Hxy|]. apply Hsym; [vm_compute; reflexivity | exact Hxy].
Defined.

(** C6, as stated, fails: an [Exam] message agrees with itself on variant,
    [before] and [after], yet [is_groupable] gives no answer for it. *)
Lemma exam_has_no_is_groupable : ~ every_variant_groupable.
Proof.
  intros Hc. destruct (Hc exam_message exam_message) as [_ Hg].
  assert (groupable exam_message exam_message) as Hbad.
  { apply Hg. repeat split. }
  discriminate Hbad.
Qed.

(** ** The canonical key (C7) *)

(** C7.  Let two parses correspond paragraph by paragraph and message by
    message under a relation [R] that holds only between messages with equal
    [original_messages].  Then [lesson_group_sort_key] gives the same key for
    both, and [sorted_canonical] puts both in the same order: the results
    correspond under [R] again, position by position.  Nothing but the
    original text enters, so two parses that differ in resolved teacher
    abbreviations only have one key. *)
Theorem canonical_key_from_original_messages :
  forall (R : LessonInfoMessage -> LessonInfoMessage -> Prop) (a b : ParsedLessonInfo),
    (forall m1 m2, R m1 m2 -> same_original m1 m2) ->
    paragraphs_related R a b ->
    lesson_group_sort_key a = lesson_group_sort_key b
    /\ paragraphs_related R (sorted_canonical a) (sorted_canonical b).
Proof.
  intros R a b HR Hab.
  assert (Hkey : forall p q, Forall2 R (messages p) (messages q) ->
                             paragraph_key p = paragraph_key q).
  { intros p q Hpq. unfold paragraph_key.
    apply Forall2_map_eq with (R := R); auto. }
  assert (Hsorted : paragraphs_related R (sorted_canonical a) (sorted_canonical b)).
  { unfold paragraphs_related, sorted_canonical. simpl.
    apply sorted_by_related; [exact Hkey|].
    apply Forall2_map with (R := fun p q => Forall2 R (messages p) (messages q)); [|exact Hab].
    intros p q Hpq. simpl. apply sorted_by_related; auto. }
  split; [|exact Hsorted].
  unfold lesson_group_sort_key.
  apply Forall2_map_eq with (R := fun p q => Forall2 R (messages p) (messages q));
    [|exact Hsorted].
  intros p q Hpq. apply (Hkey p q Hpq).
Qed.

(** One notice resolved to MUS in one parse and to MAN in the other. *)
Lemma canonical_key_from_original_messages_witness :
  lesson_group_sort_key (info_resolved_as (Some [py "MUS"]))
  = lesson_group_sort_key (info_resolved_as (Some [py "MAN"]))
  /\ paragraphs_related same_original
                        (sorted_canonical (info_resolved_as (Some [py "MUS"])))
                        (sorted_canonical (info_resolved_as (Some [py "MAN"]))).
Proof.
  apply (canonical_key_from_original_messages same_original).
  - intros m1 m2 Hm. exact Hm.
  - repeat constructor.
Defined.

(** ** Teacher resolution (C8) *)

Section Resolution.
Context {H : Helpers}.

Lemma resolved_set_found dir date ts v :
  resolved_set dir date (Some ts) = Ok v ->
  all_found dir date ts /\ abbreviations_of dir date ts v.
Proof.
  unfold resolved_set.
  destruct (mapM _ ts) as [shorts|e] eqn:E; simpl; intros Ev; [|discriminate].
  injection Ev as <-. apply mapM_Ok in E.
  split.
  - intros t Hin. induction E as [|x y l l' Hxy _ IH]; [destruct Hin|].
    destruct Hin as [->|Hin]; [|auto].
    destruct (query_plan_teacher dir t date) as [tt|]; [eauto | discriminate].
  - intros a. rewrite In_set_of_list. split.
    + intros Hin. induction E as [|x y l l' Hxy _ IH]; [destruct Hin|].
      destruct Hin as [->|Hin].
      * destruct (query_plan_teacher dir x date) as [tt|] eqn:Eq; [|discriminate].
        simpl in Hxy. injection Hxy as <-. exists x, tt. simpl; auto.
      * destruct (IH Hin) as (t & tt & Ht & Eq & Ea). exists t, tt. simpl; auto.
    + intros (t & tt & Hin & Eq & Ea).
      induction E as [|x y l l' Hxy _ IH]; [destruct Hin|].
      destruct Hin as [->|Hin]; [|right; auto].
      rewrite Eq in Hxy. simpl in Hxy. injection Hxy as <-. left. exact Ea.
Qed.

Lemma resolved_set_missing dir date ts e :
  resolved_set dir date (Some ts) = Raise e ->
  ~ all_found dir date ts /\ exists t, In t ts /\ query_plan_teacher dir t date = Raise e.
Proof.
  unfold resolved_set.
  destruct (mapM _ ts) as [shorts|e'] eqn:E; simpl; intros Ev; [discriminate|].
  injection Ev as ->. apply mapM_Raise in E as (t & Hin & Et).
  destruct (query_plan_teacher dir t date) as [tt|e'] eqn:Eq; simpl in Et; [discriminate|].
  injection Et as ->. split; [|eauto].
  intros Hall. destruct (Hall t Hin) as (x & Ex). congruence.
Qed.

Lemma unresolved_rendering (ci : CourseInfo) ts d ps :
  _teachers ci = Some ts -> ts <> [] -> plan_type_of ci = PT_forms ->
  _course_text_segments (set_other_info_value ci None) d ps
  = Ok [plain (course ci ++ py " "); plain (join (py ", ") ts)].
Proof.
  intros Hts Hne Hpt. unfold _course_text_segments, other_info_type,
    original_other_info_value. simpl. rewrite Hpt, Hts. simpl.
  destruct ts; [congruence|]. reflexivity.
Qed.

Lemma resolve_course_info_spec dir date ci :
  _teachers ci <> None -> fails_with_LookupError dir date ->
  exists ci', resolve_course_info dir date ci = Ok ci'
              /\ resolved_course_info dir date ci ci'.
Proof.
  intros Hset Hdir. unfold resolve_course_info.
  destruct (_teachers ci) as [ts|] eqn:Hts; [|congruence].
  destruct (resolved_set dir date (Some ts)) as [v|e] eqn:E.
  - apply resolved_set_found in E as [Hall Hv].
    eexists. split; [reflexivity|]. split; [reflexivity|].
    intros ts' Hts'. rewrite Hts in Hts'. injection Hts' as <-. split.
    + intros _. exists v. split; [reflexivity | exact Hv].
    + intros Hn. contradiction.
  - apply resolved_set_missing in E as (Hn & t & Hin & Et).
    rewrite (Hdir _ _ Et).
    eexists. split; [reflexivity|]. split; [reflexivity|].
    intros ts' Hts'. rewrite Hts in Hts'. injection Hts' as <-. split.
    + intros Hall. contradiction.
    + intros _. split; [reflexivity|]. intros Hpt d ps.
      apply unresolved_rendering; auto.
      intros ->. destruct Hin.
Qed.

Lemma resolve_message_spec dir date (m : LessonInfoMessage) :
  carries_teacher_set (variant (parsed m)) -> fails_with_LookupError dir date ->
  exists m', resolve_message dir date m = Ok m' /\ resolved_message dir date m m'.
Proof.
  intros Hset Hdir. unfold resolve_message, resolve_parsed, resolved_message,
    carries_teacher_set in *.
  destruct (variant (parsed m)) as [t v ps d|ci d ps|ci ps|ci ps| | | | | | | |] eqn:Hv;
    simpl in *;
    try (eexists; split; [reflexivity|]; simpl; repeat split; reflexivity);
    destruct (resolve_course_info_spec dir date ci (Hset ci eq_refl) Hdir)
      as (ci' & E & Hci');
    rewrite E; simpl; (eexists; split; [reflexivity|]); simpl;
    repeat split; exists ci'; split; auto.
Qed.

(** C8.  Let every message that has the attribute [_teachers] carry a set
    there, and let the directory fail with errors of the [LookupError] class
    only.  Then [resolve_teachers] returns: no exception leaves it.  Every
    message keeps its place and its text; a message without [_teachers] is
    unchanged; in a message with [_teachers], [other_info_value] becomes the
    set of the abbreviations found when every reference is found, and [None]
    when one is not, whatever happens to the other messages.  A message of the
    forms plan left unresolved renders its course segments as the course and
    the raw teacher references joined by ", ", both without a link. *)
Theorem resolve_teachers_confines_lookup_errors :
  forall (self : ParsedLessonInfo) (dir : Teachers) (date : option Date),
    (forall m, In m (all_messages self) -> carries_teacher_set (variant (parsed m))) ->
    fails_with_LookupError dir date ->
    exists self',
      resolve_teachers self dir date = Ok self'
      /\ Forall2 (resolved_paragraph dir date) (paragraphs self) (paragraphs self').
Proof.
  intros self dir date Hset Hdir. unfold resolve_teachers.
  destruct (mapM_Forall2 (resolve_paragraph dir date) (resolved_paragraph dir date)
                         (paragraphs self)) as (ps & E & Hps).
  - intros p Hp. unfold resolve_paragraph.
    destruct (mapM_Forall2 (resolve_message dir date) (resolved_message dir date)
                           (messages p)) as (ms & E & Hms).
    + intros m Hm. apply resolve_message_spec; auto.
      apply Hset. unfold all_messages. apply in_flat_map. eauto.
    + rewrite E. simpl. eexists. split; [reflexivity|]. split; auto.
  - rewrite E. simpl. eexists. split; [reflexivity | exact Hps].
Qed.
End Resolution.

(** A directory that knows Frau Musterfrau only, and a paragraph that names
    Herr Mustermann first and Frau Musterfrau second. *)
Lemma resolve_teachers_confines_lookup_errors_witness :
  exists self',
    resolve_teachers unresolved_info small_directory None = Ok self'
    /\ Forall2 (@resolved_paragraph spec_helpers small_directory None)
               (paragraphs unresolved_info) (paragraphs self').
Proof.
  apply (@resolve_teachers_confines_lookup_errors spec_helpers).
  - intros m [<-|[<-|[]]] ci E; injection E as <-; discriminate.
  - intros s e. simpl. destruct (str_eqb s _); intros E;
      [discriminate | injection E as <-; reflexivity].
Defined.

(** ** Teacher inference (C9) *)

Lemma set_of_list_singleton (l : list str) :
  List.length (set_of_list str_eqb l) = 1
  <-> exists a rest, l = a :: rest /\ forall x, In x rest -> x = a.
Proof.
  destruct l as [|a rest]; simpl.
  - split; [discriminate|]. intros (a & rest & E & _). discriminate.
  - split.
    + intros E. exists a, rest. split; [reflexivity|].
      assert (Hnil : filter (fun y => negb (str_eqb y a)) (set_of_list str_eqb rest) = []).
      { destruct (filter _ _); [reflexivity | discriminate]. }
      intros x Hin. apply (proj2 (In_set_of_list _ _)) in Hin.
      pose proof (proj1 (filter_nil_iff _ _) Hnil x Hin) as Hx.
      apply negb_false_iff, str_eqb_eq in Hx. exact Hx.
    + intros (a' & rest' & E & Hall). injection E as <- <-.
      assert (Hnil : filter (fun y => negb (str_eqb y a)) (set_of_list str_eqb rest) = []).
      { apply filter_nil_iff. intros x Hin. apply (proj1 (In_set_of_list _ _)) in Hin.
        apply negb_false_iff. apply str_eqb_eq. auto. }
      rewrite Hnil. reflexivity.
Qed.

Lemma teacher_set_one (_class : classes_dict) :
  List.length (teacher_set _class) = 1 <->
  exists kv rest, _class = kv :: rest /\ one_teacher _class (Class.teacher (snd kv)).
Proof.
  unfold teacher_set, one_teacher. rewrite set_of_list_singleton. split.
  - intros (a & rest & E & Hall).
    destruct _class as [|kv cl]; [discriminate|]. simpl in E. injection E as <- <-.
    exists kv, cl. split; [reflexivity|]. split; [discriminate|].
    intros kv' [<-|Hin]; [reflexivity|]. apply Hall. apply in_map_iff. eauto.
  - intros (kv & rest & -> & _ & Hall). simpl.
    exists (Class.teacher (snd kv)), (map (fun kv0 => Class.teacher (snd kv0)) rest).
    split; [reflexivity|]. intros x Hin. apply in_map_iff in Hin as (kv' & <- & Hin).
    apply Hall. right. exact Hin.
Qed.

Lemma one_teacher_head (_class : classes_dict) (a : str) :
  one_teacher _class a ->
  exists kv rest, _class = kv :: rest /\ Class.teacher (snd kv) = a
                  /\ List.length (teacher_set _class) = 1.
Proof.
  intros [Hne Hall]. destruct _class as [|kv rest]; [congruence|].
  exists kv, rest. split; [reflexivity|]. split; [apply Hall; left; reflexivity|].
  apply teacher_set_one. exists kv, rest. split; [reflexivity|].
  split; [discriminate|]. intros kv' Hin.
  rewrite (Hall kv' Hin). symmetry. apply Hall. left. reflexivity.
Qed.

Lemma In_dict_set_values (k : str) (v : Teacher) (d : list (str * Teacher)) (t : Teacher) :
  In t (map snd (dict_set str_eqb k v d)) -> t = v \/ In t (map snd d).
Proof.
  induction d as [|[k' v'] d IH]; simpl.
  - intros [<-|[]]. auto.
  - destruct (str_eqb k k'); simpl.
    + intros [<-|Hin]; auto.
    + intros [<-|Hin]; auto. destruct (IH Hin); auto.
Qed.

(** *** The narrowing, class by class *)

Lemma set_of_list_several (l : list str) :
  1 < List.length (set_of_list str_eqb l) <-> exists x y, In x l /\ In y l /\ x <> y.
Proof.
  split.
  - destruct l as [|a rest]; simpl; [lia|].
    destruct (filter (fun y => negb (str_eqb y a)) (set_of_list str_eqb rest))
      as [|y more] eqn:Ef; simpl; [lia|]. intros _.
    assert (Hy : In y (filter (fun y => negb (str_eqb y a)) (set_of_list str_eqb rest)))
      by (rewrite Ef; left; reflexivity).
    apply filter_In in Hy as [Hy Hne]. apply (proj1 (In_set_of_list _ _)) in Hy.
    exists a, y. split; [left; reflexivity|]. split; [right; exact Hy|].
    intros ->. rewrite (proj2 (str_eqb_eq y y) eq_refl) in Hne. discriminate.
  - intros (x & y & Hx & Hy & Hne).
    destruct (Nat.lt_ge_cases 1 (List.length (set_of_list str_eqb l))) as [Hlt|Hge];
      [exact Hlt|exfalso].
    destruct l as [|a rest]; [destruct Hx|].
    assert (Hone : List.length (set_of_list str_eqb (a :: rest)) = 1)
      by (simpl in *; lia).
    apply set_of_list_singleton in Hone as (a' & rest' & E & Hall).
    injection E as <- <-.
    assert (Ha : forall z, In z (a :: rest) -> z = a)
      by (intros z [<-|Hz]; auto).
    apply Hne. rewrite (Ha x Hx), (Ha y Hy). reflexivity.
Qed.

Lemma teacher_set_several (_class : classes_dict) :
  1 < List.length (teacher_set _class) <-> several (fun kv => In kv _class).
Proof.
  unfold teacher_set, several. rewrite set_of_list_several. split.
  - intros (x & y & Hx & Hy & Hne).
    apply in_map_iff in Hx as (kv1 & <- & H1). apply in_map_iff in Hy as (kv2 & <- & H2).
    exists kv1, kv2. auto.
  - intros (kv1 & kv2 & H1 & H2 & Hne).
    exists (Class.teacher (snd kv1)), (Class.teacher (snd kv2)).
    repeat split; auto; apply in_map_iff; eauto.
Qed.

Lemma several_ext (P Q : str * Class.t -> Prop) :
  (forall kv, P kv <-> Q kv) -> (several P <-> several Q).
Proof.
  intros HPQ. unfold several. split; intros (kv1 & kv2 & H1 & H2 & Hne);
    exists kv1, kv2; repeat split; auto; apply HPQ; auto.
Qed.

Lemma sole_teacher_ext (P Q : str * Class.t -> Prop) (a : str) :
  (forall kv, P kv <-> Q kv) -> (sole_teacher P a <-> sole_teacher Q a).
Proof.
  intros HPQ. unfold sole_teacher. split; intros [(kv & Hkv) Hall]; split;
    try (exists kv; apply HPQ; exact Hkv); intros kv' Hkv'; apply Hall, HPQ; exact Hkv'.
Qed.

Lemma one_teacher_sole (_class : classes_dict) (a : str) :
  one_teacher _class a <-> sole_teacher (fun kv => In kv _class) a.
Proof.
  unfold one_teacher, sole_teacher. split; intros [Hne Hall]; split; auto.
  - destruct _class as [|kv rest]; [congruence|]. exists kv. left. reflexivity.
  - destruct Hne as (kv & Hkv). intros ->. destruct Hkv.
Qed.

Lemma code_is_eqb (course : str) (c : Class.t) :
  str_eqb course (group_or_subject c) = true <-> code_is course c.
Proof.
  rewrite str_eqb_eq. unfold group_or_subject, code_is.
  destruct (Class.group c) as [[|x g]|]; simpl; split.
  - intros ->. right. auto.
  - intros [(g & E & Hne & _)|[_ E]]; [injection E as <-; congruence | exact E].
  - intros ->. left. exists (x :: g). repeat split. discriminate.
  - intros [(g' & E & _ & ->)|[[E|E] _]]; [injection E as <-; reflexivity | | ]; discriminate.
  - intros ->. right. auto.
  - intros [(g & E & _)|[_ E]]; [discriminate | exact E].
Qed.

Lemma candidates_spec (lesson : Lesson) (classes : classes_dict) (course : str)
      (kv : str * Class.t) :
  In kv (candidates lesson classes course) <-> candidate lesson classes course kv.
Proof.
  unfold candidates, candidate, covers.
  set (f1 := fun kv0 : str * Class.t =>
               str_eqb course (group_or_subject (snd kv0))
               && issubset str_eqb (forms lesson) (Class.forms (snd kv0))).
  assert (Hf1 : forall x, f1 x = true
                          <-> code_is course (snd x)
                              /\ incl (forms lesson) (Class.forms (snd x))).
  { intros x. unfold f1. rewrite andb_true_iff, code_is_eqb, issubset_incl. tauto. }
  destruct (List.length (filter f1 classes) =? 0) eqn:E.
  - apply Nat.eqb_eq, length_zero_iff_nil in E.
    pose proof (proj1 (filter_nil_iff f1 classes) E) as Hnone.
    rewrite filter_In, andb_true_iff, str_eqb_eq, issubset_incl. split.
    + intros (Hin & -> & Hc). repeat split; auto. right. split; auto.
      intros kv' Hin' Hboth. apply Hf1 in Hboth. rewrite (Hnone kv' Hin') in Hboth.
      discriminate.
    + intros (Hin & Hc & [Hcode|[_ Hs]]); [|auto].
      assert (f1 kv = true) as Habs by (apply Hf1; auto).
      rewrite (Hnone kv Hin) in Habs. discriminate.
  - rewrite filter_In, Hf1. split.
    + intros (Hin & Hcode & Hc). auto.
    + intros (Hin & Hc & [Hcode|[Hnone _]]); [auto|exfalso].
      destruct (filter f1 classes) as [|kv' more] eqn:Ef; [discriminate|].
      assert (Hkv' : In kv' (filter f1 classes)) by (rewrite Ef; left; reflexivity).
      apply filter_In in Hkv' as [Hin' Hf']. apply (Hnone kv' Hin'), Hf1, Hf'.
Qed.

Lemma narrow_by_number_In (lesson : Lesson) (_class : classes_dict) (kv : str * Class.t) :
  In kv (narrow_by_number lesson _class)
  <-> In kv _class
      /\ (several (fun kv0 => In kv0 _class) ->
          forall n, number (class_opt lesson) = Some n -> n <> [] ->
                    (exists kv', In kv' _class /\ fst kv' = n) -> fst kv = n).
Proof.
  unfold narrow_by_number, is_number, truthy, is_empty.
  destruct (1 <? List.length (teacher_set _class)) eqn:Hs; simpl.
  - apply Nat.ltb_lt, teacher_set_several in Hs.
    destruct (number (class_opt lesson)) as [[|x n]|] eqn:Hn; simpl.
    + split; [intros Hin; split; auto|tauto].
      intros _ n E Hne. injection E as <-. congruence.
    + destruct (filter (fun kv0 : str * Class.t => str_eqb (fst kv0) (x :: n)) _class)
        as [|kv' more] eqn:Ef; simpl.
      * pose proof (proj1 (filter_nil_iff _ _) Ef) as Hnone.
        split; [intros Hin; split; auto|tauto].
        intros _ n' E _ (kv' & Hin' & Hk). injection E as <-.
        specialize (Hnone kv' Hin'). simpl in Hnone.
        rewrite (proj2 (str_eqb_eq _ _) Hk) in Hnone. discriminate.
      * assert (Hkv' : In kv' (filter (fun kv0 : str * Class.t =>
                                         str_eqb (fst kv0) (x :: n)) _class))
          by (rewrite Ef; left; reflexivity).
        apply filter_In in Hkv' as [Hin' Hk']. apply str_eqb_eq in Hk'.
        change (In kv (kv' :: more)
                <-> In kv _class
                    /\ (several (fun kv0 => In kv0 _class) ->
                        forall n0, Some (x :: n) = Some n0 -> n0 <> [] ->
                                   (exists kv'0, In kv'0 _class /\ fst kv'0 = n0) ->
                                   fst kv = n0)).
        rewrite <- Ef, filter_In, str_eqb_eq. split.
        -- intros [Hin Hk]. split; auto. intros _ n0 E _ _. injection E as <-. exact Hk.
        -- intros [Hin Himp]. split; auto. apply Himp; auto; [discriminate|]. eauto.
    + split; [intros Hin; split; auto|tauto]. intros _ n E. discriminate.
  - apply Nat.ltb_ge in Hs. split; [intros Hin; split; auto|tauto].
    intros Hsev. apply teacher_set_several in Hsev. lia.
Qed.

Lemma first_letter_starts (_name : str) (c : Class.t) :
  first_letter_matches _name c = true <-> starts_name _name c.
Proof.
  unfold first_letter_matches, starts_name.
  destruct (Class.teacher c) as [|a rest], _name as [|n rest']; split;
    try discriminate;
    try (intros (a' & r & r' & E1 & E2); discriminate).
  - intros E. apply char_eqb_eq in E. subst n. eauto.
  - intros (a' & r & r' & E1 & E2). injection E1 as <- <-. injection E2 as -> <-.
    apply char_eqb_eq. reflexivity.
Qed.

Lemma narrow_by_letter_In (_name : str) (_class : classes_dict) (kv : str * Class.t) :
  In kv (narrow_by_letter _name _class)
  <-> In kv _class /\ (several (fun kv0 => In kv0 _class) -> starts_name _name (snd kv)).
Proof.
  unfold narrow_by_letter.
  destruct (1 <? List.length (teacher_set _class)) eqn:Hs.
  - apply Nat.ltb_lt, teacher_set_several in Hs.
    rewrite filter_In, first_letter_starts. tauto.
  - apply Nat.ltb_ge in Hs. split; [intros Hin; split; auto|tauto].
    intros Hsev. apply teacher_set_several in Hsev. lia.
Qed.

Lemma narrow_by_number_spec (lesson : Lesson) (classes : classes_dict) (course : str)
      (kv : str * Class.t) :
  In kv (narrow_by_number lesson (candidates lesson classes course))
  <-> numbered lesson classes course kv.
Proof.
  rewrite narrow_by_number_In. unfold numbered.
  rewrite (several_ext _ _ (candidates_spec lesson classes course)), candidates_spec.
  split; intros [Hc Himp]; split; auto; intros Hs n Hn Hne (kv' & Hkv' & Hk);
    apply (Himp Hs n Hn Hne); exists kv'; split; auto; apply candidates_spec; auto.
Qed.

Lemma survivors_spec (lesson : Lesson) (classes : classes_dict) (course _name : str)
      (kv : str * Class.t) :
  In kv (narrow_by_letter _name (narrow_by_number lesson (candidates lesson classes course)))
  <-> survivor lesson classes course _name kv.
Proof.
  rewrite narrow_by_letter_In. unfold survivor.
  rewrite (several_ext _ _ (narrow_by_number_spec lesson classes course)),
    narrow_by_number_spec.
  reflexivity.
Qed.

Section InferenceFacts.
Context {U : UnicodeData}.

Lemma infer_teacher_emits lesson classes message t :
  infer_teacher lesson classes message = Ok (Some t) <->
  exists course surname others _name,
    unresolved_course (variant (parsed message)) = Some (course, surname :: others)
    /\ 2 <= List.length (split_ws surname)
    /\ nth_error (split_ws surname) 1 = Some _name
    /\ one_teacher (narrow_by_letter _name
                      (narrow_by_number lesson (candidates lesson classes course)))
                   (plan_short t)
    /\ (exists c, In c (plan_short t) /\ isalpha c = true)
    /\ t = inferred lesson (plan_short t) surname.
Proof.
  unfold infer_teacher. split.
  - destruct (unresolved_course _) as [[course ts]|]; [|discriminate].
    destruct ts as [|surname others]; [discriminate|].
    destruct (List.length (split_ws surname) =? 1) eqn:Hone; [discriminate|].
    destruct (nth_error (split_ws surname) 1) as [_name|] eqn:Hname; [|discriminate].
    set (cl := narrow_by_letter _name _).
    destruct (List.length (teacher_set cl) =? 1) eqn:Hlen; simpl; [|discriminate].
    apply Nat.eqb_eq in Hlen. apply teacher_set_one in Hlen as (kv & rest & Ecl & Hone').
    rewrite Ecl.
    destruct (existsb isalpha (Class.teacher (snd kv))) eqn:Halpha; simpl; [|discriminate].
    intros E. injection E as <-. simpl.
    exists course, surname, others, _name. split; [reflexivity|].
    split.
    { assert (1 < List.length (split_ws surname)); [|lia].
      apply nth_error_Some. congruence. }
    split; [exact Hname|]. split; [fold cl; exact Hone'|].
    split; [apply existsb_exists; exact Halpha | reflexivity].
  - intros (course & surname & others & _name & Hu & Hlen & Hname & Hone & Halpha & Ht).
    rewrite Hu.
    replace (List.length (split_ws surname) =? 1) with false
      by (symmetry; apply Nat.eqb_neq; lia).
    rewrite Hname.
    apply one_teacher_head in Hone as (kv & rest & Ecl & Ea & Hl).
    rewrite Hl. simpl. rewrite Ecl, Ea.
    replace (existsb isalpha (plan_short t)) with true
      by (symmetry; apply existsb_exists; exact Halpha).
    simpl. rewrite Ht. reflexivity.
Qed.

Lemma infer_messages_values (P : Teacher -> Prop) lesson classes :
  forall ms out out',
    (forall t, In t (map snd out) -> P t) ->
    (forall m t, In m ms -> infer_teacher lesson classes m = Ok (Some t) -> P t) ->
    infer_messages lesson classes ms out = Ok out' ->
    forall t, In t (map snd out') -> P t.
Proof.
  induction ms as [|m ms IH]; simpl; intros out out' Hout Hms E.
  - injection E as <-. exact Hout.
  - destruct (infer_teacher lesson classes m) as [r|e] eqn:Em; simpl in E; [|discriminate].
    eapply IH; [| |exact E].
    + destruct r as [t'|]; [|exact Hout].
      intros t Hin. apply In_dict_set_values in Hin as [->|Hin]; auto.
      apply (Hms m); auto.
    + intros m' t Hin. apply Hms. auto.
Qed.

Lemma infer_messages_returns lesson classes :
  forall ms out,
    (forall m, In m ms -> exists r, infer_teacher lesson classes m = Ok r) ->
    exists out', infer_messages lesson classes ms out = Ok out'.
Proof.
  induction ms as [|m ms IH]; simpl; intros out Hms; [eauto|].
  destruct (Hms m (or_introl eq_refl)) as (r & ->). simpl. apply IH. auto.
Qed.

Lemma infer_teacher_returns lesson classes m :
  (forall course ts, unresolved_course (variant (parsed m)) = Some (course, ts) ->
                     exists surname others, ts = surname :: others /\ split_ws surname <> []) ->
  exists r, infer_teacher lesson classes m = Ok r.
Proof.
  intros Hwf. unfold infer_teacher.
  destruct (unresolved_course _) as [[course ts]|]; [|eauto].
  destruct (Hwf course ts eq_refl) as (surname & others & -> & Hne).
  destruct (List.length (split_ws surname) =? 1) eqn:Hone; [eauto|].
  destruct (nth_error (split_ws surname) 1) as [_name|] eqn:Hname.
  - set (cl := narrow_by_letter _name _).
    destruct (List.length (teacher_set cl) =? 1) eqn:Hlen; simpl; [|eauto].
    apply Nat.eqb_eq in Hlen. apply teacher_set_one in Hlen as (kv & rest & -> & _).
    destruct (negb _); eauto.
  - exfalso. apply nth_error_None in Hname. apply Nat.eqb_neq in Hone.
    destruct (split_ws surname) as [|a [|b l]]; simpl in *; try congruence; lia.
Qed.

Lemma listed_teachers lesson :
  forall (l : list str) (out : out_dict),
    (forall t, In t (map snd out) ->
               exists s, In s l /\ plan_short t = s /\ plan_long t = None
                         /\ last_seen t = _lesson_date lesson
                         /\ first_seen t = _lesson_date lesson) ->
    forall l', (forall s, In s l' -> In s l) ->
    forall t,
      In t (map snd (fold_left
                       (fun out plan_short =>
                          dict_set str_eqb plan_short
                                   {| plan_short := plan_short; plan_long := None;
                                      last_seen := _lesson_date lesson;
                                      first_seen := _lesson_date lesson |} out) l' out)) ->
      exists s, In s l /\ plan_short t = s /\ plan_long t = None
                /\ last_seen t = _lesson_date lesson
                /\ first_seen t = _lesson_date lesson.
Proof.
  intros l out Hout l'. revert out Hout.
  induction l' as [|s l' IH]; simpl; intros out Hout Hl t Hin; [auto|].
  eapply IH; [| |exact Hin]; [|auto].
  intros t' Hin'. apply In_dict_set_values in Hin' as [->|Hin']; [|auto].
  exists s. simpl. auto.
Qed.

Lemma unresolved_course_attrs (p : Parsed) (k : str) (ts : pyset str) :
  unresolved_course p = Some (k, ts)
  <-> exists ci, get_course_info p = Ok ci /\ other_info_value ci = None
                 /\ _teachers ci = Some ts /\ k = course ci.
Proof.
  unfold unresolved_course, get_course_info. split.
  - destruct p as [| ci ? ? | ci ? | ci ? | | | | | | | |]; try discriminate;
      (destruct (other_info_value ci) eqn:Ho; [discriminate|]);
      (destruct (_teachers ci) eqn:Ht; [|discriminate]);
      intros E; injection E as <- <-; exists ci; auto.
  - intros (ci & Hg & Ho & Ht & ->).
    destruct p; try discriminate; injection Hg as ->; rewrite Ho, Ht; reflexivity.
Qed.

Lemma infer_teacher_stores lesson classes message t :
  infer_teacher lesson classes message = Ok (Some t) <-> stores_record lesson classes message t.
Proof.
  rewrite infer_teacher_emits. unfold stores_record. split.
  - intros (course & surname & others & _name & Hu & Hlen & Hname & Hone & Halpha & Ht).
    apply unresolved_course_attrs in Hu as (ci & Hg & Ho & Hts & ->).
    exists ci, surname, others, _name. repeat (split; [assumption|]). split; [|auto].
    apply (sole_teacher_ext _ _ _ (survivors_spec lesson classes (course ci) _name)).
    apply one_teacher_sole. exact Hone.
  - intros (ci & surname & others & _name & Hg & Ho & Hts & Hlen & Hname & Hsole & Halpha & Ht).
    exists (course ci), surname, others, _name.
    split; [apply unresolved_course_attrs; exists ci; auto|].
    repeat (split; [assumption|]). split; [|auto].
    apply one_teacher_sole.
    apply (sole_teacher_ext _ _ _ (survivors_spec lesson classes (course ci) _name)).
    exact Hsole.
Qed.

Lemma dict_set_In_new (k : str) (v : Teacher) (d : out_dict) :
  In (k, v) (dict_set str_eqb k v d).
Proof.
  induction d as [|[k' v'] d IH]; simpl; [auto|].
  destruct (str_eqb k k'); simpl; auto.
Qed.

Lemma dict_set_In_other (k : str) (v : Teacher) (d : out_dict) (k' : str) (v' : Teacher) :
  k' <> k -> In (k', v') d -> In (k', v') (dict_set str_eqb k v d).
Proof.
  intros Hne. induction d as [|[k0 v0] d IH]; simpl; [tauto|].
  destruct (str_eqb k k0) eqn:E; simpl.
  - apply str_eqb_eq in E. subst k0. intros [E'|Hin]; [|auto].
    injection E' as E1 _. congruence.
  - intros [E'|Hin]; auto.
Qed.

Lemma infer_messages_keeps (P : Teacher -> Prop) lesson classes (k : str) :
  forall ms out out',
    infer_messages lesson classes ms out = Ok out' ->
    (forall m t, In m ms -> infer_teacher lesson classes m = Ok (Some t) ->
                 plan_short t = k -> P t) ->
    (exists t, In (k, t) out /\ P t) ->
    exists t, In (k, t) out' /\ P t.
Proof.
  induction ms as [|m ms IH]; simpl; intros out out' E Hms Hout.
  - injection E as <-. exact Hout.
  - destruct (infer_teacher lesson classes m) as [r|e] eqn:Em; simpl in E; [|discriminate].
    apply (IH _ _ E); [intros m' t' Hin; apply Hms; auto|].
    destruct r as [t2|]; [|exact Hout].
    destruct Hout as (t & Hin & HP).
    destruct (str_eqb (plan_short t2) k) eqn:Ek.
    + apply str_eqb_eq in Ek. exists t2. split.
      * rewrite <- Ek. apply dict_set_In_new.
      * apply (Hms m); auto.
    + exists t. split; [|exact HP]. apply dict_set_In_other; [|exact Hin].
      intros ->. rewrite (proj2 (str_eqb_eq _ _) eq_refl) in Ek. discriminate.
Qed.

Lemma infer_messages_stores lesson classes :
  forall ms out out' m t,
    infer_messages lesson classes ms out = Ok out' ->
    In m ms -> infer_teacher lesson classes m = Ok (Some t) ->
    exists t' m', In t' (map snd out') /\ plan_short t' = plan_short t
                  /\ In m' ms /\ infer_teacher lesson classes m' = Ok (Some t').
Proof.
  induction ms as [|m0 ms IH]; simpl; intros out out' m t E Hin Em; [destruct Hin|].
  destruct (infer_teacher lesson classes m0) as [r|e] eqn:Em0; simpl in E; [|discriminate].
  destruct Hin as [->|Hin].
  - rewrite Em in Em0. injection Em0 as <-.
    destruct (infer_messages_keeps
                (fun t' => plan_short t' = plan_short t
                           /\ exists m', In m' (m :: ms)
                                         /\ infer_teacher lesson classes m' = Ok (Some t'))
                lesson classes (plan_short t) ms _ out' E) as (t' & Hin' & Hk & m' & Hm' & Em').
    + intros m' t' Hm' Em' Hk. split; [exact Hk|]. exists m'. split; [right|]; auto.
    + exists t. split; [apply dict_set_In_new|]. split; [reflexivity|].
      exists m. split; [left|]; auto.
    + exists t', m'. split; [|auto].
      apply in_map_iff. exists (plan_short t, t'). auto.
  - destruct (IH _ _ m t E Hin Em) as (t' & m' & H1 & H2 & H3 & H4).
    exists t', m'. auto.
Qed.

(** C9, as the code has it.  A pass of the loop of [extract_teachers] over a
    message stores a record if and only if: the message is a course message
    with [other_info_value] unresolved and a teacher set; the surname taken
    from the set has at least two tokens; and exactly one teacher abbreviation
    is left among the surviving classes, and it has an alphabetic character.
    The candidate classes are those whose forms contain the lesson's and whose
    group, or subject where no group is set, is the course; where there are
    none, those of that subject.  Only while the candidates have several
    teachers are they narrowed to the lesson's class number, if it is set and
    names a candidate; and only while several teachers are still left, to the
    teachers whose first letter starts the second token of the surname.  The
    record pairs the abbreviation with the surname and the lesson date.  For
    an unscheduled lesson whose unresolved course messages name a surname
    with a token, [extract_teachers] returns; each record it returns is one
    of the lesson's own teachers or the record stored for one of the
    messages; and for each message that stores a record the result holds a
    record stored under that abbreviation. *)
Theorem extract_teachers_emits_single_candidate :
  forall (lesson : Lesson) (classes : classes_dict),
    (forall message t,
        infer_teacher lesson classes message = Ok (Some t)
        <-> stores_record lesson classes message t)
    /\ (_is_scheduled lesson = false ->
        surnames_have_a_token lesson ->
        exists out,
          extract_teachers lesson classes = Ok out
          /\ (forall t, In t out ->
                listed lesson t
                \/ exists message,
                     In message (all_messages (parsed_info lesson))
                     /\ stores_record lesson classes message t)
          /\ (forall message t,
                In message (all_messages (parsed_info lesson)) ->
                stores_record lesson classes message t ->
                exists t' message',
                  In t' out /\ plan_short t' = plan_short t
                  /\ In message' (all_messages (parsed_info lesson))
                  /\ stores_record lesson classes message' t')).
Proof.
  intros lesson classes. split; [intros; apply infer_teacher_stores|].
  intros Hs Hwf. unfold extract_teachers. rewrite Hs.
  set (out0 := fold_left _ _ _).
  destruct (infer_messages_returns lesson classes (all_messages (parsed_info lesson)) out0)
    as (out & E).
  { intros m Hm. apply infer_teacher_returns. intros course ts Hu.
    apply unresolved_course_attrs in Hu as (ci & Hg & Ho & Hts & _).
    apply (Hwf m ci ts Hm Hg Ho Hts). }
  rewrite E. simpl. eexists. split; [reflexivity|]. split.
  - apply (infer_messages_values
             (fun t => listed lesson t
                       \/ exists message,
                            In message (all_messages (parsed_info lesson))
                            /\ stores_record lesson classes message t)
             lesson classes (all_messages (parsed_info lesson)) out0 out); [| |exact E].
    + intros t Hin. left. unfold listed. subst out0.
      destruct (teachers lesson) as [l|]; [|destruct Hin].
      exists l. split; [reflexivity|].
      destruct (listed_teachers lesson l [] (fun t H => False_ind _ H) l (fun s H => H) t Hin)
        as (s & Hs' & Hp & Hl & Hls & Hfs).
      split; [rewrite Hp; exact Hs'|].
      destruct t; simpl in *. congruence.
    + intros m t Hm Em. right. exists m. split; [exact Hm|].
      apply infer_teacher_stores. exact Em.
  - intros message t Hm Hst. apply infer_teacher_stores in Hst.
    destruct (infer_messages_stores lesson classes _ _ _ message t E Hm Hst)
      as (t' & m' & H1 & H2 & H3 & H4).
    exists t', m'. repeat (split; [assumption|]). apply infer_teacher_stores. exact H4.
Qed.
End InferenceFacts.

(** The unplanned lesson of form 10/1 with teacher XYZ and the two unresolved
    notices, against two classes of MA taught by MUS and by XYZ: the first
    letter of "Musterfrau" leaves MUS, and the result holds XYZ and the pair
    of MUS with "Frau Musterfrau". *)
Lemma extract_teachers_emits_single_candidate_witness :
  @extract_teachers latin1 unplanned_lesson two_classes
  = Ok [{| plan_short := py "XYZ"; plan_long := None;
           last_seen := june 7; first_seen := june 7 |};
        inferred unplanned_lesson (py "MUS") (py "Frau Musterfrau")]
  /\ _is_scheduled unplanned_lesson = false
  /\ surnames_have_a_token unplanned_lesson
  /\ exists out,
       @extract_teachers latin1 unplanned_lesson two_classes = Ok out
       /\ (forall t, In t out ->
             listed unplanned_lesson t
             \/ exists message,
                  In message (all_messages (parsed_info unplanned_lesson))
                  /\ @stores_record latin1 unplanned_lesson two_classes message t)
       /\ (forall message t,
             In message (all_messages (parsed_info unplanned_lesson)) ->
             @stores_record latin1 unplanned_lesson two_classes message t ->
             exists t' message',
               In t' out /\ plan_short t' = plan_short t
               /\ In message' (all_messages (parsed_info unplanned_lesson))
               /\ @stores_record latin1 unplanned_lesson two_classes message' t').
Proof.
  assert (Hwf : surnames_have_a_token unplanned_lesson).
  { intros m ci ts [<-|[<-|[]]] Hg Ho Hts; injection Hg as <-; injection Hts as <-;
      eexists; eexists; (split; [reflexivity|]); vm_compute; discriminate. }
  split; [vm_compute; reflexivity|]. split; [reflexivity|]. split; [exact Hwf|].
  apply (proj2 (@extract_teachers_emits_single_candidate latin1 unplanned_lesson two_classes));
    [reflexivity | exact Hwf].
Defined.

(** Against the one class of MA taught by XYZ the notice
    "für MA Frau Musterfrau" stores the pair of XYZ with "Frau Musterfrau". *)
Example XYZ_stored_for_Musterfrau :
  @infer_teacher latin1 unplanned_lesson class_of_XYZ {| parsed := substituted_MA; index := 1 |}
  = Ok (Some (inferred unplanned_lesson (py "XYZ") (py "Frau Musterfrau")))
  /\ @extract_teachers latin1 unplanned_lesson class_of_XYZ
     = Ok [inferred unplanned_lesson (py "XYZ") (py "Frau Musterfrau")].
Proof. split; vm_compute; reflexivity. Qed.

(** C9, as stated, fails: with one candidate class the first letter is not
    looked at.  Against the one class of MA taught by XYZ the unplanned lesson
    gets the pair of XYZ with "Frau Musterfrau", though "X" starts neither
    "Musterfrau" nor "Mustermann", so that the narrowing by first letter
    leaves no class for either notice. *)
Theorem one_candidate_skips_first_letter : ~ @extract_teachers_as_stated latin1.
Proof.
  intros Hc.
  destruct (Hc unplanned_lesson class_of_XYZ _
               (inferred unplanned_lesson (py "XYZ") (py "Frau Musterfrau"))
               eq_refl (proj2 XYZ_stored_for_Musterfrau) (or_introl eq_refl))
    as [(l & _ & _ & E)
       |(message & ci & surname & others & _name & Hin & Hg & Ho & Ht & Hn & Hsole & _)].
  - vm_compute in E. discriminate E.
  - destruct Hsole as [((k & c) & Hcand & _ & (x & rest & rest' & Ht' & Hn')) _].
    destruct Hcand as ([E|[]] & _). injection E as <- <-.
    destruct Hin as [<-|[<-|[]]]; simpl in Hg; injection Hg as <-;
      simpl in Ht; injection Ht as <- <-;
      vm_compute in Hn; injection Hn as <-;
      vm_compute in Ht', Hn'; congruence.
Qed.

(** The group of a class names the course where one is set: the cancellation
    of DE is taken to the class of subject D and group DE. *)
Example group_names_the_course :
  @infer_teacher latin1 unplanned_lesson class_with_group {| parsed := cancelled_DE; index := 0 |}
  = Ok (Some (inferred unplanned_lesson (py "xyz") (py "Herr Mann"))).
Proof. vm_compute. reflexivity. Qed.

(** ** Serialisation (C10) *)

Lemma Parsed_serialize_fields (p : Parsed) :
  exists fields,
    Parsed_serialize p = JDict fields
    /\ map fst fields = "type"%string :: map fst (asdict p)
    /\ assoc "type" fields = Some (JStr (class_name p))
    /\ forall k v, In (k, v) (asdict p) -> assoc k fields = Some (convert v).
Proof.
  unfold Parsed_serialize. eexists. split; [reflexivity|].
  destruct p; (split; [reflexivity|]); (split; [reflexivity|]); intros k v Hin; simpl in Hin;
    repeat match goal with
           | Hor : _ \/ _ |- _ => destruct Hor as [Heq|Hor]; [injection Heq as <- <-; reflexivity|]
           | Hf : False |- _ => destruct Hf
           end.
Qed.

(** The numbers from 1 to [hi], filled with zeros to [width] digits, read
    back as themselves: checked number by number. *)
Lemma zero_pad_reads (width : nat) (hi : Z) :
  forallb (fun k => let s := zero_pad width (str_of_Z (Z.of_nat k)) in
                    (List.length s =? width) && forallb (in_range "0" "9") s
                    && (@int_of latin1 s =? Z.of_nat k)%Z)
          (seq 1 (Z.to_nat hi)) = true ->
  forall n, (1 <= n <= hi)%Z ->
            List.length (zero_pad width (str_of_Z n)) = width
            /\ reads (zero_pad width (str_of_Z n)) n.
Proof.
  intros Hall n Hn.
  assert (Hin : In (Z.to_nat n) (seq 1 (Z.to_nat hi))) by (apply in_seq; lia).
  pose proof (proj1 (forallb_forall _ _) Hall _ Hin) as Hk. cbv beta zeta in Hk.
  rewrite Z2Nat.id in Hk by lia.
  apply andb_true_iff in Hk as [Hk Hz]. apply andb_true_iff in Hk as [Hl Hd].
  apply Nat.eqb_eq in Hl. apply Z.eqb_eq in Hz. unfold reads. auto.
Qed.

Lemma days_in_month_le (y m : Z) : (days_in_month y m <= 31)%Z.
Proof.
  unfold days_in_month.
  destruct (m =? 2)%Z; [destruct (is_leap y); lia|].
  destruct ((m =? 4) || (m =? 6) || (m =? 9) || (m =? 11))%Z; lia.
Qed.

Lemma isoformat_iso_8601 (d : Date) : calendar_day d -> iso_8601 (isoformat d) d.
Proof.
  intros (Hy & Hm & Hd).
  pose proof (days_in_month_le (year d) (month d)) as Hle.
  destruct (zero_pad_reads 4 9999 ltac:(vm_compute; reflexivity) (year d)) as [Ly Ry]; [lia|].
  destruct (zero_pad_reads 2 12 ltac:(vm_compute; reflexivity) (month d)) as [Lm Rm]; [lia|].
  destruct (zero_pad_reads 2 31 ltac:(vm_compute; reflexivity) (day d)) as [Ld Rd]; [lia|].
  exists (zero_pad 4 (str_of_Z (year d))), (zero_pad 2 (str_of_Z (month d))),
    (zero_pad 2 (str_of_Z (day d))).
  split; [reflexivity|]. auto 10.
Qed.

(** C10.  For a message parsed as [FailedToParse], [serialize] gives "parsed"
    as null, and "text_segments" holds, between [before] and [after] where
    they are not empty, one segment without link whose text is the
    typography-fixed ", "-join of the original messages.  For every other
    variant "parsed" is a mapping whose keys are "type" and the field names of
    the variant, in that order, and which holds under "type" the name of the
    variant and under each field name the converted field.  A date converts to
    its [isoformat], which for every day of the calendar is the form
    YYYY-MM-DD of ISO 8601: four, two and two digits that read as the year,
    the month and the day; a set converts to the sorted list of its
    elements. *)
Theorem serialize_hides_FailedToParse :
  forall (H : Helpers) (self : LessonInfoMessage) (lesson_date : Date)
         (block_config : BlockConfiguration),
    (variant (parsed self) = FailedToParse ->
     LessonInfoMessage_serialize self lesson_date block_config
     = Ok (JDict
             [("parsed"%string, JNull);
              ("text_segments"%string,
               JList
                 ((if is_empty (before (parsed self)) then []
                   else [JDict [("text"%string, JStr (before (parsed self)));
                                ("link"%string, JNull)]])
                  ++ [JDict [("text"%string,
                              JStr (fix_typography
                                      (join (py ", ") (original_messages (parsed self)))));
                             ("link"%string, JNull)]]
                  ++ (if is_empty (after (parsed self)) then []
                      else [JDict [("text"%string, JStr (after (parsed self)));
                                   ("link"%string, JNull)]])))]))
    /\ (variant (parsed self) <> FailedToParse ->
        exists fields,
          map fst fields = "type"%string :: map fst (asdict (variant (parsed self)))
          /\ assoc "type" fields = Some (JStr (class_name (variant (parsed self))))
          /\ (forall k v, In (k, v) (asdict (variant (parsed self))) ->
                          assoc k fields = Some (convert v))
          /\ LessonInfoMessage_serialize self lesson_date block_config
             = (segs <- to_text_segments (parsed self) lesson_date block_config ;;
                Ok (JDict [("parsed"%string, JDict fields);
                           ("text_segments"%string,
                            JList (map LessonInfoTextSegment_serialize segs))])))
    /\ (forall d, convert (VDate d) = JStr (isoformat d))
    /\ (forall d, calendar_day d -> iso_8601 (isoformat d) d)
    /\ (forall s, convert (VSetStr s) = JList (map JStr (sorted_str s))
                  /\ Sorted (fun a b => str_ltb b a = false) (sorted_str s)
                  /\ Permutation s (sorted_str s))
    /\ (forall s, convert (VSetInt s) = JList (map JInt (sorted_int s))
                  /\ Sorted (fun a b => (a <= b)%Z) (sorted_int s)
                  /\ Permutation s (sorted_int s)).
Proof.
  intros H self lesson_date block_config. split; [|split; [|split; [|split; [|split]]]].
  - intros Hv. unfold LessonInfoMessage_serialize, to_text_segments, _to_text_segments.
    rewrite Hv. simpl.
    destruct (before (parsed self)), (after (parsed self)); reflexivity.
  - intros Hv. destruct (Parsed_serialize_fields (variant (parsed self)))
      as (fields & Ef & Hkeys & Ht & Hk).
    exists fields. split; [exact Hkeys|]. split; [exact Ht|]. split; [exact Hk|].
    unfold LessonInfoMessage_serialize. rewrite Ef.
    destruct (variant (parsed self)); try reflexivity. congruence.
  - reflexivity.
  - apply isoformat_iso_8601.
  - intros s. split; [reflexivity | apply sorted_str_sorted].
  - intros s. split; [reflexivity | apply sorted_int_sorted].
Qed.

(** The literal notice "siehe Aushang"; and the move to Monday, 5 June 2023,
    seen from 7 June: the whole of what [serialize] returns, the links with
    the resolved teacher and the form, and the date as it is written. *)
Lemma serialize_hides_FailedToParse_witness :
  @LessonInfoMessage_serialize spec_helpers {| parsed := literal_message; index := 0 |}
                               (june 7) numbered_blocks
  = Ok (JDict [("parsed"%string, JNull);
               ("text_segments"%string,
                JList [JDict [("text"%string, JStr (py "siehe Aushang"));
                              ("link"%string, JNull)]])])
  /\ @LessonInfoMessage_serialize spec_helpers {| parsed := moved_past; index := 0 |}
                                  (june 7) numbered_blocks
     = Ok (JDict
             [("parsed"%string,
               JDict [("type"%string, JStr (py "MovedTo"));
                      ("course"%string, JStr (py "MA"));
                      ("plan_type"%string, JStr (py "forms"));
                      ("plan_value"%string, JList [JStr (py "10/1")]);
                      ("other_info_value"%string, JList [JStr (py "MUS")]);
                      ("_teachers"%string, JList [JStr (py "Frau Musterfrau")]);
                      ("date"%string, JStr (py "2023-06-05"));
                      ("periods"%string, JList [JInt 1; JInt 2])]);
              ("text_segments"%string,
               JList
                 [JDict [("text"%string, JStr (py "MA ")); ("link"%string, JNull)];
                  JDict [("text"%string, JStr (py "Frau Musterfrau"));
                         ("link"%string,
                          JDict [("type"%string, JStr (py "teachers"));
                                 ("value"%string, JList [JStr (py "MUS")]);
                                 ("date"%string, JStr (py "2023-06-05"));
                                 ("periods"%string, JList [JInt 1; JInt 2])])];
                  JDict [("text"%string, JStr (py " gehalten am "));
                         ("link"%string, JNull)];
                  JDict [("text"%string, JStr (py "Mo (05.06.2023) St.1-2"));
                         ("link"%string,
                          JDict [("type"%string, JStr (py "forms"));
                                 ("value"%string, JList [JStr (py "10/1")]);
                                 ("date"%string, JStr (py "2023-06-05"));
                                 ("periods"%string, JList [JInt 1; JInt 2])])]])])
  /\ (exists fields,
        map fst fields
        = ["type"; "course"; "plan_type"; "plan_value"; "other_info_value"; "_teachers";
           "date"; "periods"]%string
        /\ assoc "type" fields = Some (JStr (py "MovedTo"))
        /\ assoc "date" fields = Some (JStr (py "2023-06-05"))
        /\ assoc "periods" fields = Some (JList [JInt 1; JInt 2]))
  /\ calendar_day {| year := 23; month := 6; day := 5 |}
  /\ isoformat {| year := 23; month := 6; day := 5 |} = py "0023-06-05"
  /\ iso_8601 (py "0023-06-05") {| year := 23; month := 6; day := 5 |}.
Proof.
  assert (Hday : calendar_day {| year := 23; month := 6; day := 5 |})
    by (vm_compute; intuition discriminate).
  split; [|split; [vm_compute; reflexivity|]].
  2: split; [|split; [exact Hday|split; [vm_compute; reflexivity|]]].
  - rewrite (proj1 (serialize_hides_FailedToParse spec_helpers
                      {| parsed := literal_message; index := 0 |} (june 7) numbered_blocks)
                   eq_refl).
    reflexivity.
  - destruct (proj1 (proj2 (serialize_hides_FailedToParse spec_helpers
                              {| parsed := moved_past; index := 0 |} (june 7)
                              numbered_blocks)))
      as (fields & Hkeys & Ht & Hk & _); [simpl; discriminate|].
    exists fields. split; [exact Hkeys|]. split; [exact Ht|]. split.
    + apply (Hk "date"%string (VDate (june 5))). simpl. auto 10.
    + apply (Hk "periods"%string (VSetInt [1%Z; 2%Z])). simpl. auto 10.
  - change (py "0023-06-05") with (isoformat {| year := 23; month := 6; day := 5 |}).
    apply (proj1 (proj2 (proj2 (proj2 (serialize_hides_FailedToParse spec_helpers
                      {| parsed := literal_message; index := 0 |} (june 7) numbered_blocks))))).
    exact Hday.
Defined.
